(** * Blob transfer of the docker registry client

    A shallow embedding of [registry/blob.go] in its two revisions: the one
    whose chunked upload is [UploadBlobToArtifactory], and the one whose
    chunked upload is [UploadChunkedBlob] with [completeChunkedUploadBlob].
    [DownloadBlob], [UploadBlob], [HasBlob], [BlobMetadata] and
    [initiateUpload] are the same text in both and are embedded once.

    The code is a driver over an injected HTTP client.  Every call it makes
    on that client, every response body it drains or closes and every log
    line it writes is recorded, in order, in a trace; the client answers a
    request as a function of the requests already sent. *)

From Stdlib Require Import Ascii.
From stdpp Require Import base strings gmap list sorting pretty.

Open Scope Z_scope.

(** ** Data model *)

(** [digest.Digest] is a string type; [digest.String()] is the identity. *)
Definition Digest := string.

(** [io.Reader] content handed to an upload: the bytes it will yield. *)
Definition Reader := string.

(** [http.Header]: [map[string][]string].  Every key the code uses
    ([Content-Type], [Content-Range], [Content-Length], [Location]) is
    already in canonical MIME form, so canonicalisation is the identity. *)
Definition Header_Get (h : gmap string (list string)) (key : string) : string :=
  match h !! key with
  | Some (v :: _) => v
  | _ => ""
  end.

Definition Header_Set (h : gmap string (list string)) (key value : string)
  : gmap string (list string) :=
  <[key := [value]]> h.

(** [io.ReadCloser] of a response: the descriptor [fd] tells the bodies of
    different exchanges apart, [bytes] is what reading to EOF yields. *)
Record ReadCloser := { fd : nat; bytes : string }.

(** [http.Response], the fields the code reads. *)
Record Response := {
  Status : string;
  StatusCode : Z;
  Header : gmap string (list string);
  Body : ReadCloser;
  ContentLength : Z
}.

(** Modelled from the spec: the declaration of [HttpStatusError] is outside
    the blob file; the spec calls it an HTTP-status error carrying a status,
    found as the inner cause of a transport-error wrapper.  [UrlError] is
    [*url.Error]; [errorString] stands for every other dynamic type
    ([errors.New], [fmt.Errorf], [errors.Errorf], network errors). *)
Inductive error :=
| UrlError (Op URL : string) (Err : error)
| HttpStatusError (resp : Response) (body : string)
| errorString (s : string).

(** [url.URL], without userinfo and the raw/escaped twins of path and
    fragment. *)
Record URL := {
  Scheme : string;
  Opaque : string;
  Host : string;
  Path : string;
  ForceQuery : bool;
  RawQuery : string;
  Fragment : string
}.

Definition URL_zero : URL :=
  {| Scheme := ""; Opaque := ""; Host := ""; Path := ""; ForceQuery := false;
     RawQuery := ""; Fragment := "" |}.

(** [u.RawQuery = q] *)
Definition set_RawQuery (u : URL) (q : string) : URL :=
  {| Scheme := Scheme u; Opaque := Opaque u; Host := Host u; Path := Path u;
     ForceQuery := ForceQuery u; RawQuery := q; Fragment := Fragment u |}.

(** [url.Values] with [Values.Set]: the key's values become the one value. *)
Definition Values_Set (v : gmap string (list string)) (key value : string)
  : gmap string (list string) :=
  <[key := [value]]> v.

(** The part of Go's [net/url] the code calls.  [Parse_empty] records that
    [url.Parse] accepts the empty string and yields the zero URL. *)
Class NetURL := {
  Parse : string -> URL + error;
  URL_String : URL -> string;
  ParseQuery : string -> gmap string (list string);
  Values_Encode : gmap string (list string) -> string;
  Parse_empty : Parse "" = inl URL_zero
}.

(** [u.Query()] parses [RawQuery] and drops malformed pairs. *)
Definition URL_Query `{NetURL} (u : URL) : gmap string (list string) :=
  ParseQuery (RawQuery u).

(** The [Error()] method of the error values, used by [%s]. *)
Class ErrorText := { Error : error -> string }.

(** [distribution.Descriptor] *)
Record Descriptor := {
  MediaType : string;
  Size : Z;
  Digest_ : Digest;
  URLs : list string
}.

Definition Descriptor_zero : Descriptor :=
  {| MediaType := ""; Size := 0; Digest_ := ""; URLs := [] |}.

(** [http.Request]: the target is kept in the text handed to
    [http.NewRequest]; a nil body is [None]. *)
Record Request := {
  Method : string;
  Target : string;
  ReqHeader : gmap string (list string);
  ReqBody : option Reader;
  GetBody : option (unit -> Reader + error)
}.

Definition Request_Header_Set (r : Request) (key value : string) : Request :=
  {| Method := Method r; Target := Target r;
     ReqHeader := Header_Set (ReqHeader r) key value;
     ReqBody := ReqBody r; GetBody := GetBody r |}.

Definition set_GetBody (r : Request) (g : unit -> Reader + error) : Request :=
  {| Method := Method r; Target := Target r; ReqHeader := ReqHeader r;
     ReqBody := ReqBody r; GetBody := Some g |}.

(** [if getBody != nil { req.GetBody = getBody }] *)
Definition attach_GetBody (r : Request)
    (getBody : option (unit -> Reader + error)) : Request :=
  match getBody with
  | Some g => set_GetBody r g
  | None => r
  end.

(** [http.NewRequest]: fails when the target does not parse.  The body is an
    [io.Reader] of unknown dynamic type, for which Go leaves [GetBody] nil;
    for a [*bytes.Buffer], [*bytes.Reader] or [*strings.Reader] Go fills it,
    and no statement below reads the [GetBody] of a request to which the
    caller's own regenerator was not attached. *)
Definition NewRequest `{NetURL} (method url : string) (body : option Reader)
  : Request + error :=
  match Parse url with
  | inr e => inr e
  | inl _ => inl {| Method := method; Target := url; ReqHeader := ∅;
                    ReqBody := body; GetBody := None |}
  end.

(** ** Effects *)

Inductive Event :=
| Logged (line : string)
| Sent (req : Request)
| Drained (body : nat)
| Closed (body : nat).

Definition World := list Event.

Definition requests (w : World) : list Request :=
  omap (fun e => match e with Sent r => Some r | _ => None end) w.

Definition is_Closed (n : nat) (e : Event) : bool :=
  match e with Closed m => Nat.eqb n m | _ => false end.

Definition is_Drained (n : nat) (e : Event) : bool :=
  match e with Drained m => Nat.eqb n m | _ => false end.

(** How many times the body [n] has been closed, and drained. *)
Definition closes (n : nat) (w : World) : nat :=
  length (List.filter (is_Closed n) w).

Definition drains (n : nat) (w : World) : nat :=
  length (List.filter (is_Drained n) w).

(** Requests sent with the given method. *)
Definition sent_with (method : string) (w : World) : list Request :=
  List.filter (fun r => String.eqb (Method r) method) (requests w).

(** The injected HTTP executor ([registry.Client]): given the requests sent
    before, the response and the error of the next one.  Go returns both. *)
Definition Transport := list Request -> Request -> option Response * option error.

(** Modelled from the spec: the [Registry] struct with its [url] and [Logf]
    methods is declared outside the blob file (URL construction to a base
    registry endpoint and logging are external collaborators): [url]
    prefixes the formatted path with the base URL, [Logf] writes the
    formatted line. *)
Record Registry := { RegistryURL : string; Client : Transport }.

Definition Registry_url (registry : Registry) (path : string) : string :=
  RegistryURL registry +:+ path.

(** A computation either returns or panics (nil dereference), and leaves a
    trace either way. *)
Inductive Outcome (A : Type) :=
| Val (a : A)
| Panic.
Arguments Val {A} a.
Arguments Panic {A}.

Definition M (A : Type) : Type := World -> Outcome A * World.

Definition ret {A} (a : A) : M A := fun w => (Val a, w).

Definition bind {A B} (m : M A) (k : A -> M B) : M B :=
  fun w =>
    match m w with
    | (Val a, w') => k a w'
    | (Panic, w') => (Panic, w')
    end.

Declare Scope go_scope.
Delimit Scope go_scope with go.
Notation "'let*' x ':=' m 'in' k" := (bind m (fun x => k))
  (at level 10, x pattern, m at level 100, k at level 200) : go_scope.
Notation "m ;; k" := (bind m (fun _ => k))
  (at level 100, right associativity) : go_scope.
Open Scope go_scope.

Definition emit (e : Event) : M unit := fun w => (Val tt, w ++ [e]).

(** Use of a pointer: nil panics. *)
Definition deref {A} (p : option A) : M A :=
  fun w => match p with Some a => (Val a, w) | None => (Panic, w) end.

(** [defer d]: [d] runs when the body has returned or panicked. *)
Definition deferred {A} (d : M unit) (body : M A) : M A :=
  fun w => let (o, w') := body w in (o, snd (d w')).

Definition Logf (line : string) : M unit := emit (Logged line).

(** [body.Close()] *)
Definition Close (b : ReadCloser) : M unit := emit (Closed (fd b)).

(** [buf.ReadFrom(body); buf.String()] *)
Definition ReadFrom (b : ReadCloser) : M string :=
  emit (Drained (fd b)) ;; ret (bytes b).

(** [if resp != nil { defer resp.Body.Close() }] *)
Definition close_if_present (resp : option Response) : M unit :=
  match resp with
  | Some rp => Close (Body rp)
  | None => ret tt
  end.

Definition with_fd (n : nat) (rp : Response) : Response :=
  {| Status := Status rp; StatusCode := StatusCode rp; Header := Header rp;
     Body := {| fd := n; bytes := bytes (Body rp) |};
     ContentLength := ContentLength rp |}.

(** [registry.Client.Do(req)]: the body of the response to the n-th request
    (from 0) gets the descriptor n. *)
Definition Client_Do (registry : Registry) (req : Request)
  : M (option Response * option error) :=
  fun w =>
    let n := length (requests w) in
    let '(resp, err) := Client registry (requests w) req in
    (Val (with_fd n <$> resp, err), w ++ [Sent req]).

(** [Client.Get], [Client.Head], [Client.Post] of [net/http] build the
    request and call [Do]. *)
Definition Client_Get `{NetURL} (registry : Registry) (url : string)
  : M (option Response * option error) :=
  match NewRequest "GET" url None with
  | inr e => ret (None, Some e)
  | inl req => Client_Do registry req
  end.

Definition Client_Head `{NetURL} (registry : Registry) (url : string)
  : M (option Response * option error) :=
  match NewRequest "HEAD" url None with
  | inr e => ret (None, Some e)
  | inl req => Client_Do registry req
  end.

Definition Client_Post `{NetURL} (registry : Registry) (url contentType : string)
    (body : option Reader) : M (option Response * option error) :=
  match NewRequest "POST" url body with
  | inr e => ret (None, Some e)
  | inl req => Client_Do registry (Request_Header_Set req "Content-Type" contentType)
  end.

(** ** The operations of [registry/blob.go] *)

Section Blob.
Context `{NetURL} `{ErrorText}.

(** [registry.url("/v2/%s/blobs/%s", repository, digest)] *)
Definition blobUrl (registry : Registry) (repository : string) (digest : Digest)
  : string :=
  Registry_url registry ("/v2/" +:+ repository +:+ "/blobs/" +:+ digest).

Definition DownloadBlob (registry : Registry) (repository : string)
    (digest : Digest) : M (option ReadCloser * option error) :=
  let url := blobUrl registry repository digest in
  Logf ("registry.blob.download url=" +:+ url +:+ " repository=" +:+ repository
        +:+ " digest=" +:+ digest) ;;
  let* (resp, err) := Client_Get registry url in
  match err with
  | Some e => ret (None, Some e)
  | None =>
      let* resp := deref resp in
      ret (Some (Body resp), None)
  end.

Definition initiateUpload (registry : Registry) (repository : string)
  : M (option URL * option error) :=
  let initiateUrl :=
    Registry_url registry ("/v2/" +:+ repository +:+ "/blobs/uploads/") in
  Logf ("registry.blob.initiate-upload url=" +:+ initiateUrl +:+ " repository="
        +:+ repository) ;;
  let* (resp, err) :=
    Client_Post registry initiateUrl "application/octet-stream" None in
  deferred (close_if_present resp)
    match err with
    | Some e => ret (None, Some e)
    | None =>
        let* resp := deref resp in
        let location := Header_Get (Header resp) "Location" in
        match Parse location with
        | inr e => ret (None, Some e)
        | inl locationUrl => ret (Some locationUrl, None)
        end
    end.

(** [q := u.Query(); q.Set("digest", digest.String()); u.RawQuery = q.Encode()] *)
Definition with_digest (uploadUrl : URL) (digest : Digest) : URL :=
  let q := URL_Query uploadUrl in
  let q := Values_Set q "digest" digest in
  set_RawQuery uploadUrl (Values_Encode q).

Definition UploadBlob (registry : Registry) (repository : string)
    (digest : Digest) (content : Reader)
    (getBody : option (unit -> Reader + error)) : M (option error) :=
  let* (uploadUrl, err) := initiateUpload registry repository in
  match err with
  | Some e => ret (Some e)
  | None =>
      let* uploadUrl := deref uploadUrl in
      let uploadUrl := with_digest uploadUrl digest in
      Logf ("registry.blob.upload url=" +:+ URL_String uploadUrl +:+ " repository="
            +:+ repository +:+ " digest=" +:+ digest) ;;
      match NewRequest "PUT" (URL_String uploadUrl) (Some content) with
      | inr e => ret (Some e)
      | inl upload =>
          let upload :=
            Request_Header_Set upload "Content-Type" "application/octet-stream" in
          let upload := attach_GetBody upload getBody in
          let* (resp, err) := Client_Do registry upload in
          match err with
          | Some e => ret (Some e)
          | None =>
              let* resp := deref resp in
              Close (Body resp) ;;
              ret None
          end
      end
  end.

Definition HasBlob (registry : Registry) (repository : string) (digest : Digest)
  : M (bool * option error) :=
  let checkUrl := blobUrl registry repository digest in
  Logf ("registry.blob.check url=" +:+ checkUrl +:+ " repository=" +:+ repository
        +:+ " digest=" +:+ digest) ;;
  let* (resp, err) := Client_Head registry checkUrl in
  deferred (close_if_present resp)
    match err with
    | None =>
        let* resp := deref resp in
        ret (StatusCode resp =? 200, None)
    | Some err =>
        match err with
        | UrlError _ _ urlErr_Err =>
            match urlErr_Err with
            | HttpStatusError httpErr_Response _ =>
                if StatusCode httpErr_Response =? 404
                then ret (false, None)
                else ret (false, Some err)
            | _ => ret (false, Some err)
            end
        | _ => ret (false, Some err)
        end
    end.

Definition BlobMetadata (registry : Registry) (repository : string)
    (digest : Digest) : M (Descriptor * option error) :=
  let checkUrl := blobUrl registry repository digest in
  Logf ("registry.blob.check url=" +:+ checkUrl +:+ " repository=" +:+ repository
        +:+ " digest=" +:+ digest) ;;
  let* (resp, err) := Client_Head registry checkUrl in
  deferred (close_if_present resp)
    match err with
    | Some e => ret (Descriptor_zero, Some e)
    | None =>
        let* resp := deref resp in
        ret ({| MediaType := ""; Size := ContentLength resp; Digest_ := digest;
                URLs := [] |}, None)
    end.

(** *** Chunked upload, revision with [completeChunkedUploadBlob] *)

Definition completeChunkedUploadBlob (registry : Registry) (repository : string)
    (digest : Digest) (getBody : option (unit -> Reader + error))
    (uploadUrl : URL) : M (option error) :=
  let uploadUrl := with_digest uploadUrl digest in
  let upload_err := NewRequest "PUT" (URL_String uploadUrl) None in
  Logf ("registry.blob.completeChunkedUpload url=" +:+ URL_String uploadUrl
        +:+ " repository=" +:+ repository +:+ " digest=" +:+ digest) ;;
  match upload_err with
  | inr e => ret (Some e)
  | inl upload =>
      let upload :=
        Request_Header_Set upload "Content-Type" "application/octet-stream" in
      let upload := Request_Header_Set upload "Content-Range" "0-0" in
      let upload := Request_Header_Set upload "Content-Length" "0" in
      let upload := attach_GetBody upload getBody in
      let* (resp, err) := Client_Do registry upload in
      match err with
      | Some e => ret (Some e)
      | None =>
          let* resp := deref resp in
          if negb (StatusCode resp =? 201) then
            let* buf := ReadFrom (Body resp) in
            ret (Some (errorString
              ("retrieving " +:+ URL_String uploadUrl +:+ " returned "
               +:+ Status resp +:+ " response: " +:+ buf)))
          else
            Close (Body resp) ;;
            ret None
      end
  end.

Definition UploadChunkedBlob (registry : Registry) (repository : string)
    (digest : Digest) (content : Reader)
    (getBody : option (unit -> Reader + error)) : M (option error) :=
  let* (uploadUrl, err) := initiateUpload registry repository in
  match err with
  | Some e => ret (Some e)
  | None =>
      let* uploadUrl := deref uploadUrl in
      Logf ("registry.blob.chunkedUpload url=" +:+ URL_String uploadUrl
            +:+ " repository=" +:+ repository +:+ " digest=" +:+ digest) ;;
      match NewRequest "PATCH" (URL_String uploadUrl) (Some content) with
      | inr e => ret (Some e)
      | inl upload =>
          let upload :=
            Request_Header_Set upload "Content-Type" "application/octet-stream" in
          let upload := attach_GetBody upload getBody in
          let* (resp, err) := Client_Do registry upload in
          match err with
          | Some e => ret (Some e)
          | None =>
              let* resp := deref resp in
              if negb (StatusCode resp =? 202) then
                let* buf := ReadFrom (Body resp) in
                ret (Some (errorString
                  ("retrieving " +:+ URL_String uploadUrl +:+ " returned "
                   +:+ Status resp +:+ " response: " +:+ buf)))
              else
                Close (Body resp) ;;
                completeChunkedUploadBlob registry repository digest getBody
                  uploadUrl
          end
      end
  end.

(** *** Chunked upload, revision with [UploadBlobToArtifactory] *)

Definition UploadBlobToArtifactory (registry : Registry) (repository : string)
    (digest : Digest) (content : Reader)
    (getBody : option (unit -> Reader + error)) : M (option error) :=
  let* (uploadUrl, err) := initiateUpload registry repository in
  match err with
  | Some e => ret (Some e)
  | None =>
      let* uploadUrl := deref uploadUrl in
      let uploadUrl := with_digest uploadUrl digest in
      Logf ("registry.blob.uploadToArtifactory url=" +:+ URL_String uploadUrl
            +:+ " repository=" +:+ repository +:+ " digest=" +:+ digest) ;;
      match NewRequest "PATCH" (URL_String uploadUrl) (Some content) with
      | inr e => ret (Some e)
      | inl uploadStep1 =>
          let uploadStep1 :=
            Request_Header_Set uploadStep1 "Content-Type"
              "application/octet-stream" in
          let uploadStep1 := attach_GetBody uploadStep1 getBody in
          let* (resp1, err) := Client_Do registry uploadStep1 in
          deferred (close_if_present resp1)
            match err with
            | Some e =>
                match resp1 with
                | None =>
                    ret (Some (errorString
                      ("error while uploading blob to " +:+ repository
                       +:+ ", digest: " +:+ digest +:+ ": " +:+ Error e)))
                | Some resp1 =>
                    ret (Some (errorString
                      ("error while uploading blob to " +:+ repository +:+ ": "
                       +:+ pretty (StatusCode resp1) +:+ " " +:+ Status resp1
                       +:+ ": digest: " +:+ digest +:+ ": " +:+ Error e)))
                end
            | None =>
                let* resp1 := deref resp1 in
                if negb (StatusCode resp1 =? 202) then
                  ret (Some (errorString
                    ("unexpected PATCH response while uploading blob to "
                     +:+ repository +:+ ": " +:+ pretty (StatusCode resp1)
                     +:+ " " +:+ Status resp1 +:+ ": digest: " +:+ digest)))
                else
                  match NewRequest "PUT" (URL_String uploadUrl) None with
                  | inr e => ret (Some e)
                  | inl uploadStep2 =>
                      let uploadStep2 :=
                        Request_Header_Set uploadStep2 "Content-Type"
                          "application/octet-stream" in
                      let uploadStep2 := attach_GetBody uploadStep2 getBody in
                      let* (_, err) := Client_Do registry uploadStep2 in
                      ret err
                  end
            end
      end
  end.

End Blob.

(** ** An executable [net/url]

    The functions below follow Go's [net/url] on references that carry no
    userinfo and no percent-escapes outside the query: [Parse] keeps host,
    path and fragment verbatim and checks neither port nor escapes. *)

Module GoURL.

Fixpoint Cut (s : string) (sep : ascii) : string * string * bool :=
  match s with
  | EmptyString => ("", "", false)
  | String c s' =>
      if Ascii.eqb c sep then ("", s', true)
      else let '(before, after, found) := Cut s' sep in
           (String c before, after, found)
  end.

Fixpoint split (s : string) (sep : ascii) : list string :=
  match s with
  | EmptyString => [""]
  | String c s' =>
      if Ascii.eqb c sep then "" :: split s' sep
      else match split s' sep with
           | x :: xs => String c x :: xs
           | [] => [String c ""]
           end
  end.

Fixpoint anyByte (p : ascii -> bool) (s : string) : bool :=
  match s with
  | EmptyString => false
  | String c s' => p c || anyByte p s'
  end.

Definition byte_in (lo hi : N) (c : ascii) : bool :=
  (lo <=? N_of_ascii c)%N && (N_of_ascii c <=? hi)%N.

Definition is_lower := byte_in 97 122.
Definition is_upper := byte_in 65 90.
Definition is_digit := byte_in 48 57.
Definition is_ctl (c : ascii) : bool :=
  (N_of_ascii c <? 32)%N || (N_of_ascii c =? 127)%N.

Definition stringContainsCTLByte : string -> bool := anyByte is_ctl.

Definition lower (c : ascii) : ascii :=
  if is_upper c then ascii_of_N (N_of_ascii c + 32) else c.

Fixpoint ToLower (s : string) : string :=
  match s with
  | EmptyString => ""
  | String c s' => String (lower c) (ToLower s')
  end.

Inductive SchemeScan :=
| NoScheme
| MissingScheme
| FoundScheme (scheme rest : string).

Definition more_scheme (c : ascii) (r : SchemeScan) : SchemeScan :=
  match r with
  | FoundScheme scheme rest => FoundScheme (String c scheme) rest
  | other => other
  end.

Fixpoint scanScheme (first : bool) (s : string) : SchemeScan :=
  match s with
  | EmptyString => NoScheme
  | String c s' =>
      if is_lower c || is_upper c then more_scheme c (scanScheme false s')
      else if is_digit c || Ascii.eqb c "+" || Ascii.eqb c "-" || Ascii.eqb c "."
      then (if first then NoScheme else more_scheme c (scanScheme false s'))
      else if Ascii.eqb c ":"
      then (if first then MissingScheme else FoundScheme "" s')
      else NoScheme
  end.

Definition getScheme (rawURL : string) : string * string + error :=
  match scanScheme true rawURL with
  | NoScheme => inl ("", rawURL)
  | MissingScheme => inr (errorString "missing protocol scheme")
  | FoundScheme scheme rest => inl (scheme, rest)
  end.

Definition nonempty (s : string) : bool := negb (String.eqb s "").

Fixpoint count (c : ascii) (s : string) : nat :=
  match s with
  | EmptyString => 0%nat
  | String c' s' => ((if Ascii.eqb c c' then 1 else 0) + count c s')%nat
  end.

Definition HasSuffix (s suffix : string) : bool :=
  String.eqb
    (String.substring (String.length s - String.length suffix)
       (String.length suffix) s) suffix
  && (String.length suffix <=? String.length s)%nat.

(** [parse(rawURL, false)] *)
Definition parse (rawURL : string) : URL + error :=
  if stringContainsCTLByte rawURL
  then inr (errorString "net/url: invalid control character in URL")
  else if String.eqb rawURL "*"
  then inl (Build_URL "" "" "" "*" false "" "")
  else
    match getScheme rawURL with
    | inr e => inr e
    | inl (scheme, rest) =>
        let scheme := ToLower scheme in
        let '(rest, force, rawQuery) :=
          if HasSuffix rest "?" && Nat.eqb (count "?" rest) 1
          then (String.substring 0 (String.length rest - 1) rest, true, "")
          else let '(before, after, _) := Cut rest "?" in (before, false, after) in
        if negb (String.prefix "/" rest) && nonempty scheme
        then inl (Build_URL scheme rest "" "" force rawQuery "")
        else if negb (String.prefix "/" rest)
                && anyByte (Ascii.eqb ":") (Cut rest "/").1.1
        then inr (errorString "first path segment in URL cannot contain colon")
        else if (nonempty scheme || negb (String.prefix "///" rest))
                && String.prefix "//" rest
        then
          let authority := String.substring 2 (String.length rest - 2) rest in
          let '(host, path, found) := Cut authority "/" in
          inl (Build_URL scheme "" host (if found then "/" +:+ path else "")
                 force rawQuery "")
        else inl (Build_URL scheme "" "" rest force rawQuery "")
    end.

Definition Parse (rawURL : string) : URL + error :=
  let '(u, frag, _) := Cut rawURL "#" in
  match parse u with
  | inr e => inr (UrlError "parse" u e)
  | inl url =>
      inl (Build_URL (Scheme url) (Opaque url) (Host url) (Path url)
             (ForceQuery url) (RawQuery url) frag)
  end.

Definition URLString (u : URL) : string :=
  let buf := if nonempty (Scheme u) then Scheme u +:+ ":" else "" in
  let buf :=
    if nonempty (Opaque u) then buf +:+ Opaque u
    else
      let buf :=
        if nonempty (Scheme u) || nonempty (Host u)
        then (if nonempty (Host u) || nonempty (Path u)
              then buf +:+ "//" else buf) +:+ Host u
        else buf in
      let buf :=
        if nonempty (Path u) && negb (String.prefix "/" (Path u))
           && nonempty (Host u)
        then buf +:+ "/" else buf in
      let buf :=
        if String.eqb buf "" && anyByte (Ascii.eqb ":") (Cut (Path u) "/").1.1
        then buf +:+ "./" else buf in
      buf +:+ Path u in
  let buf :=
    if ForceQuery u || nonempty (RawQuery u)
    then buf +:+ "?" +:+ RawQuery u else buf in
  if nonempty (Fragment u) then buf +:+ "#" +:+ Fragment u else buf.

(** Percent-encoding of query components. *)

Definition hexdigit (n : N) : ascii :=
  if (n <? 10)%N then ascii_of_N (48 + n) else ascii_of_N (55 + n).

Definition unhex (c : ascii) : option N :=
  if is_digit c then Some (N_of_ascii c - 48)%N
  else if byte_in 97 102 c then Some (N_of_ascii c - 87)%N
  else if byte_in 65 70 c then Some (N_of_ascii c - 55)%N
  else None.

Definition unreserved (c : ascii) : bool :=
  is_lower c || is_upper c || is_digit c || Ascii.eqb c "-" || Ascii.eqb c "_"
  || Ascii.eqb c "." || Ascii.eqb c "~".

Fixpoint QueryEscape (s : string) : string :=
  match s with
  | EmptyString => ""
  | String c s' =>
      if unreserved c then String c (QueryEscape s')
      else if Ascii.eqb c " " then String "+" (QueryEscape s')
      else String "%" (String (hexdigit (N_of_ascii c / 16))
             (String (hexdigit (N_of_ascii c mod 16)) (QueryEscape s')))
  end.

Fixpoint QueryUnescape (s : string) : option string :=
  match s with
  | EmptyString => Some ""
  | String c s' =>
      if Ascii.eqb c "%" then
        match s' with
        | String h (String l s'') =>
            match unhex h, unhex l, QueryUnescape s'' with
            | Some a, Some b, Some r => Some (String (ascii_of_N (16 * a + b)) r)
            | _, _, _ => None
            end
        | _ => None
        end
      else
        match QueryUnescape s' with
        | Some r => Some (String (if Ascii.eqb c "+" then " "%char else c) r)
        | None => None
        end
  end.

Definition parsePair (m : gmap string (list string)) (pair : string)
  : gmap string (list string) :=
  if anyByte (Ascii.eqb ";") pair || String.eqb pair "" then m
  else
    let '(key, value, _) := Cut pair "=" in
    match QueryUnescape key, QueryUnescape value with
    | Some key, Some value => <[key := default [] (m !! key) ++ [value]]> m
    | _, _ => m
    end.

Definition ParseQuery (query : string) : gmap string (list string) :=
  fold_left parsePair (split query "&") ∅.

Definition key_le (a b : string * list string) : Prop := String.leb a.1 b.1.

Definition encodeKey (kv : string * list string) : list string :=
  (fun v => QueryEscape kv.1 +:+ "=" +:+ QueryEscape v) <$> kv.2.

Fixpoint join (sep : string) (l : list string) : string :=
  match l with
  | [] => ""
  | [x] => x
  | x :: xs => x +:+ sep +:+ join sep xs
  end.

Definition Encode (v : gmap string (list string)) : string :=
  join "&" (mbind encodeKey (merge_sort key_le (map_to_list v))).

End GoURL.

#[export] Instance GoURL_NetURL : NetURL := {|
  Parse := GoURL.Parse;
  URL_String := GoURL.URLString;
  ParseQuery := GoURL.ParseQuery;
  Values_Encode := GoURL.Encode;
  Parse_empty := eq_refl
|}.

Definition quoted (s : string) : string :=
  String (ascii_of_nat 34) (s +:+ String (ascii_of_nat 34) "").

(** The texts of [Error()] used in the examples. *)
Fixpoint error_text (e : error) : string :=
  match e with
  | UrlError Op URL Err => Op +:+ " " +:+ quoted URL +:+ ": " +:+ error_text Err
  | HttpStatusError resp body =>
      "http: non-successful response (status=" +:+ pretty (StatusCode resp)
      +:+ " body=" +:+ quoted body +:+ ")"
  | errorString s => s
  end.

#[export] Instance Go_ErrorText : ErrorText := {| Error := error_text |}.

(** ** Example registries *)

(** A client that answers the n-th request with the n-th scripted answer. *)
Definition scripted (answers : list (option Response * option error))
  : Transport :=
  fun history _ =>
    default (None, Some (errorString "unexpected request"))
      (answers !! length history).

Definition reply (code : Z) (status : string)
    (header : gmap string (list string)) (body : string) : Response :=
  {| Status := status; StatusCode := code; Header := header;
     Body := {| fd := 0; bytes := body |};
     ContentLength := Z.of_nat (String.length body) |}.

Definition example_registry (answers : list (option Response * option error))
  : Registry :=
  {| RegistryURL := "https://registry.example"; Client := scripted answers |}.

Definition session_location : string :=
  "https://registry.example/v2/app/blobs/uploads/7f3c".

Definition accepted_session : option Response * option error :=
  (Some (reply 202 "202 Accepted" {["Location" := [session_location]]} ""), None).

Definition example_digest : Digest := "sha256:ab12".

(** The spec's not-found shape: a transport-error wrapper whose inner cause
    is an HTTP-status error with status 404. *)
Definition NotFound (e : error) : Prop :=
  exists Op URL resp body,
    e = UrlError Op URL (HttpStatusError resp body) /\ StatusCode resp = 404.

(** ** Requests, message text and further examples *)

(** [registry.url("/v2/%s/blobs/uploads/", repository)] *)
Definition initiateUrl (registry : Registry) (repository : string) : string :=
  Registry_url registry ("/v2/" +:+ repository +:+ "/blobs/uploads/").

(** [strings.Contains] *)
Fixpoint Contains (s substr : string) : bool :=
  String.prefix substr s
  || match s with
     | EmptyString => false
     | String _ s' => Contains s' substr
     end.

(** The request that carries content: the monolithic PUT, the chunked PATCH. *)
Definition octet_request (upload : Request) getBody : Request :=
  attach_GetBody
    (Request_Header_Set upload "Content-Type" "application/octet-stream") getBody.

(** The finalizing request of [completeChunkedUploadBlob]. *)
Definition finalize_put (upload : Request) getBody : Request :=
  attach_GetBody
    (Request_Header_Set
       (Request_Header_Set
          (Request_Header_Set upload "Content-Type" "application/octet-stream")
          "Content-Range" "0-0")
       "Content-Length" "0") getBody.

Definition not_found_error : error :=
  UrlError "Head" "https://registry.example/v2/app/blobs/sha256:ab12"
    (HttpStatusError (reply 404 "404 Not Found" ∅ "") "").

Definition connection_refused : error :=
  errorString "dial tcp 203.0.113.7:443: connect: connection refused".

Definition patch_accepted : option Response * option error :=
  (Some (reply 202 "202 Accepted" ∅ ""), None).

Definition server_error (body : string) : option Response * option error :=
  (Some (reply 500 "500 Internal Server Error" ∅ body), None).

(** The session starts and the PATCH is accepted, the finalizing PUT is
    answered by 500. *)
Definition finalize_rejected : Registry :=
  example_registry [accepted_session; patch_accepted; server_error "blob unknown"].

(** The session starts, the PATCH is answered by 500. *)
Definition transfer_rejected : Registry :=
  example_registry [accepted_session; server_error "boom"].

(** Every step is answered as the protocol expects. *)
Definition conformant : Registry :=
  example_registry
    [accepted_session; patch_accepted;
     (Some (reply 201 "201 Created" ∅ ""), None)].

Definition blob_present : Response :=
  {| Status := "200 OK"; StatusCode := 200; Header := ∅;
     Body := {| fd := 0; bytes := "" |}; ContentLength := 5120 |}.

Definition blob_unknown : Response :=
  reply 404 "404 Not Found" ∅ "blob unknown to registry".

Definition malformed_location : option Response * option error :=
  (Some (reply 202 "202 Accepted" {["Location" := [":7f3c"]]} ""), None).

Definition rejected_session : option Response * option error :=
  (Some (reply 503 "503 Service Unavailable"
           {["Location" := [session_location]]} "try later"), None).

Definition session_url : URL :=
  {| Scheme := "https"; Opaque := ""; Host := "registry.example";
     Path := "/v2/app/blobs/uploads/7f3c"; ForceQuery := false;
     RawQuery := ""; Fragment := "" |}.

(** The session starts, the monolithic PUT is answered by 500. *)
Definition put_rejected : Registry :=
  example_registry [accepted_session; server_error "digest mismatch"].


Definition line_of (r : Request) : string * string := (Method r, Target r).

Definition framing_of (r : Request) : string * string :=
  (Header_Get (ReqHeader r) "Content-Length",
   Header_Get (ReqHeader r) "Content-Range").

(** What [http.NewRequest] builds before any header is set. *)
Definition bare_request (method url : string) (body : option Reader) : Request :=
  {| Method := method; Target := url; ReqHeader := ∅; ReqBody := body;
     GetBody := None |}.

(** The contract of [http.Client]: a nil error comes with a response. *)
Definition responds_or_fails (client : Transport) : Prop :=
  forall history req, (client history req).2 = None ->
                      (client history req).1 <> None.

(** What every request of an upload carries after the session: the caller's
    regenerator, if any, and the octet-stream content type. *)
Definition forwards (getBody : option (unit -> Reader + error)) (r : Request)
  : Prop :=
  GetBody r = getBody
  /\ Header_Get (ReqHeader r) "Content-Type" = "application/octet-stream".

(** A registry whose base URL does not parse. *)
Definition misconfigured : Registry :=
  {| RegistryURL := ":registry.example";
     Client := scripted [(Some (reply 200 "200 OK" ∅ ""), None)] |}.

Definition redirect_refused : option Response * option error :=
  (Some (reply 302 "302 Found" ∅ ""),
   Some (UrlError "Patch" session_location (errorString "redirect refused"))).

Definition fresh_copy : unit -> Reader + error := fun _ => inl "layer".

(** A response that comes together with an error, as when a redirect is
    refused. *)
Definition probe_refused : option Response * option error :=
  (Some (reply 302 "302 Found" ∅ ""),
   Some (UrlError "Head" "https://registry.example/v2/app/blobs/sha256:ab12"
           (errorString "redirect refused"))).

(** The session starts, the PATCH exchange fails without a response. *)
Definition patch_unreachable : Registry :=
  example_registry [accepted_session; (None, Some connection_refused)].

(** The session starts, the PATCH exchange fails with a response. *)
Definition patch_redirected : Registry :=
  example_registry [accepted_session; redirect_refused].

(** ** Trace and monad lemmas *)

Lemma requests_app (w1 w2 : World) :
  requests (w1 ++ w2) = requests w1 ++ requests w2.
Proof. unfold requests. apply omap_app. Qed.

Lemma requests_logged (w : World) (line : string) :
  requests (w ++ [Logged line]) = requests w.
Proof. rewrite requests_app. simpl. apply app_nil_r. Qed.

Lemma requests_sent (w : World) (req : Request) :
  requests (w ++ [Sent req]) = requests w ++ [req].
Proof. by rewrite requests_app. Qed.

Lemma requests_closed (w : World) (n : nat) :
  requests (w ++ [Closed n]) = requests w.
Proof. rewrite requests_app. simpl. apply app_nil_r. Qed.

Lemma requests_drained (w : World) (n : nat) :
  requests (w ++ [Drained n]) = requests w.
Proof. rewrite requests_app. simpl. apply app_nil_r. Qed.

Create Rewrite HintDb trace.
#[export] Hint Rewrite requests_logged requests_sent requests_closed
  requests_drained : trace.

Lemma closes_app (n : nat) (w1 w2 : World) :
  closes n (w1 ++ w2) = (closes n w1 + closes n w2)%nat.
Proof. unfold closes. rewrite List.filter_app. apply length_app. Qed.

Lemma sent_with_app (m : string) (w1 w2 : World) :
  sent_with m (w1 ++ w2) = sent_with m w1 ++ sent_with m w2.
Proof. unfold sent_with. rewrite requests_app. apply List.filter_app. Qed.

Lemma closes_closed (n : nat) : closes n [Closed n] = 1%nat.
Proof. unfold closes. simpl. by rewrite Nat.eqb_refl. Qed.

Section Exchanges.
Context `{NetURL}.

Lemma NewRequest_inl (method url : string) (body : option Reader) (r : Request) :
  NewRequest method url body = inl r ->
  r = {| Method := method; Target := url; ReqHeader := ∅; ReqBody := body;
         GetBody := None |}.
Proof. unfold NewRequest. destruct (Parse url); by intros [= <-]. Qed.

Lemma Client_Do_run registry req w :
  Client_Do registry req w
  = (Val (with_fd (length (requests w)) <$> (Client registry (requests w) req).1,
          (Client registry (requests w) req).2), w ++ [Sent req]).
Proof. unfold Client_Do. by destruct (Client registry (requests w) req). Qed.

(** What a client call returns does not depend on the log lines before it. *)
Lemma Client_Do_logged registry req w line :
  (Client_Do registry req (w ++ [Logged line])).1 = (Client_Do registry req w).1.
Proof.
  unfold Client_Do. rewrite requests_logged.
  by destruct (Client registry (requests w) req).
Qed.

Lemma Client_Do_world registry req w :
  (Client_Do registry req w).2 = w ++ [Sent req].
Proof. unfold Client_Do. by destruct (Client registry (requests w) req). Qed.

Lemma Client_Do_fd registry req w rp err :
  (Client_Do registry req w).1 = Val (Some rp, err) ->
  fd (Body rp) = length (requests w).
Proof.
  unfold Client_Do. destruct (Client registry (requests w) req) as [[r|] e];
    simpl; intros [= <- _]; done.
Qed.

Lemma Client_Get_logged registry url w line :
  (Client_Get registry url (w ++ [Logged line])).1 = (Client_Get registry url w).1.
Proof.
  unfold Client_Get. destruct (NewRequest "GET" url None); [|done].
  apply Client_Do_logged.
Qed.

Lemma Client_Head_logged registry url w line :
  (Client_Head registry url (w ++ [Logged line])).1
  = (Client_Head registry url w).1.
Proof.
  unfold Client_Head. destruct (NewRequest "HEAD" url None); [|done].
  apply Client_Do_logged.
Qed.

Lemma Client_Post_logged registry url ct body w line :
  (Client_Post registry url ct body (w ++ [Logged line])).1
  = (Client_Post registry url ct body w).1.
Proof.
  unfold Client_Post. destruct (NewRequest "POST" url body); [|done].
  apply Client_Do_logged.
Qed.

(** A client call closes nothing. *)
Lemma Client_Get_closes registry url w n :
  closes n (Client_Get registry url w).2 = closes n w.
Proof.
  unfold Client_Get. destruct (NewRequest "GET" url None); [|done].
  rewrite Client_Do_world, closes_app. unfold closes. simpl. lia.
Qed.

Lemma Client_Head_closes registry url w n :
  closes n (Client_Head registry url w).2 = closes n w.
Proof.
  unfold Client_Head. destruct (NewRequest "HEAD" url None); [|done].
  rewrite Client_Do_world, closes_app. unfold closes. simpl. lia.
Qed.

Lemma Client_Post_closes registry url ct body w n :
  closes n (Client_Post registry url ct body w).2 = closes n w.
Proof.
  unfold Client_Post. destruct (NewRequest "POST" url body); [|done].
  rewrite Client_Do_world, closes_app. unfold closes. simpl. lia.
Qed.

End Exchanges.

(** ** Probes and download *)

Section Probes.
Context `{NetURL} `{ErrorText}.

(** C1.  HasBlob: when the HEAD exchange returns a response with status 200
    and no error the result is (true, nil); when it returns an error of the
    not-found shape (a url.Error whose inner cause is an HttpStatusError
    with status 404) the result is (false, nil); for every other error the
    result is false together with that same error. *)
Theorem HasBlob_classifies registry repository digest w resp err :
  (Client_Head registry (blobUrl registry repository digest) w).1
    = Val (resp, err) ->
  (forall rp, err = None -> resp = Some rp -> StatusCode rp = 200 ->
     (HasBlob registry repository digest w).1 = Val (true, None))
  /\ (forall e, err = Some e -> NotFound e ->
        (HasBlob registry repository digest w).1 = Val (false, None))
  /\ (forall e, err = Some e -> ~ NotFound e ->
        (HasBlob registry repository digest w).1 = Val (false, Some e)).
Proof.
  intros Hx. unfold HasBlob, Logf, emit, bind, deferred at 1. simpl.
  pose proof (Client_Head_logged registry (blobUrl registry repository digest) w
    ("registry.blob.check url=" +:+ blobUrl registry repository digest
     +:+ " repository=" +:+ repository +:+ " digest=" +:+ digest)) as Hl.
  rewrite Hx in Hl.
  destruct (Client_Head _ _ (w ++ _)) as [o w1]. simpl in Hl. subst o.
  split; [|split].
  - intros rp -> -> Hc. unfold deferred, bind, deref, ret. simpl.
    by rewrite Hc.
  - intros e -> (Op & U & rp & body & -> & Hc). unfold deferred. simpl.
    by rewrite Hc.
  - intros e -> Hn. unfold deferred.
    destruct e as [Op U [| rp body |]| |]; simpl; try done.
    destruct (StatusCode rp =? 404) eqn:Hc; [|done].
    exfalso. apply Hn. exists Op, U, rp, body. split; [done|lia].
Qed.

(** C8.  BlobMetadata: when the HEAD exchange returns a response and no
    error the result is a descriptor whose digest is the caller's digest and
    whose size is the response's Content-Length, with a nil error; when the
    exchange returns any error, the not-found shape included, the result is
    the zero descriptor together with that same error. *)
Theorem BlobMetadata_descriptor registry repository digest w resp err :
  (Client_Head registry (blobUrl registry repository digest) w).1
    = Val (resp, err) ->
  (forall rp, err = None -> resp = Some rp ->
     exists d, (BlobMetadata registry repository digest w).1 = Val (d, None)
               /\ Digest_ d = digest /\ Size d = ContentLength rp)
  /\ (forall e, err = Some e ->
        (BlobMetadata registry repository digest w).1
          = Val (Descriptor_zero, Some e)).
Proof.
  intros Hx. unfold BlobMetadata, Logf, emit, bind, deferred at 1. simpl.
  pose proof (Client_Head_logged registry (blobUrl registry repository digest) w
    ("registry.blob.check url=" +:+ blobUrl registry repository digest
     +:+ " repository=" +:+ repository +:+ " digest=" +:+ digest)) as Hl.
  rewrite Hx in Hl.
  destruct (Client_Head _ _ (w ++ _)) as [o w1]. simpl in Hl. subst o.
  split.
  - intros rp -> ->. unfold deferred. simpl. eexists. split; [done|]. done.
  - intros e ->. unfold deferred. simpl. done.
Qed.

(** C9.  DownloadBlob returns an error exactly when the GET exchange returns
    one, and then that same error; when the exchange returns a response and
    no error, whatever its status code, the result is the response's body
    with a nil error, and the body has not been closed. *)
Theorem DownloadBlob_stream registry repository digest w resp err :
  (Client_Get registry (blobUrl registry repository digest) w).1
    = Val (resp, err) ->
  (forall e, err = Some e ->
     (DownloadBlob registry repository digest w).1 = Val (None, Some e))
  /\ (forall rp, err = None -> resp = Some rp ->
        (DownloadBlob registry repository digest w).1
          = Val (Some (Body rp), None)
        /\ closes (fd (Body rp)) (DownloadBlob registry repository digest w).2
           = closes (fd (Body rp)) w)
  /\ (forall body e, (DownloadBlob registry repository digest w).1
                       = Val (body, Some e) -> err = Some e).
Proof.
  intros Hx. unfold DownloadBlob, Logf, emit, bind. simpl.
  set (line := "registry.blob.download url=" +:+ _).
  pose proof (Client_Get_logged registry (blobUrl registry repository digest) w
    line) as Hl.
  pose proof (Client_Get_closes registry (blobUrl registry repository digest)
    (w ++ [Logged line])) as Hc.
  rewrite Hx in Hl.
  destruct (Client_Get _ _ (w ++ _)) as [o w1]. simpl in Hl, Hc. subst o.
  split; [|split].
  - by intros e ->.
  - intros rp -> ->. simpl. split; [done|].
    rewrite Hc, closes_app. unfold closes. simpl. lia.
  - intros body e. destruct err as [e'|]; simpl.
    + by intros [= _ ->].
    + destruct resp; simpl; intros [=].
Qed.

(** Both probes close the body of the response they got, once, with or
    without an error. *)
Lemma HasBlob_closes registry repository digest w rp err :
  (Client_Head registry (blobUrl registry repository digest) w).1
    = Val (Some rp, err) ->
  closes (fd (Body rp)) (HasBlob registry repository digest w).2
  = S (closes (fd (Body rp)) w).
Proof.
  intros Hx. unfold HasBlob, Logf, emit, bind, deferred at 1. simpl.
  set (line := "registry.blob.check url=" +:+ _).
  pose proof (Client_Head_logged registry (blobUrl registry repository digest) w
    line) as Hl.
  pose proof (Client_Head_closes registry (blobUrl registry repository digest)
    (w ++ [Logged line])) as Hc.
  rewrite Hx in Hl.
  destruct (Client_Head _ _ (w ++ _)) as [o w1]. simpl in Hl, Hc. subst o.
  unfold deferred. simpl.
  assert (Hw : closes (fd (Body rp)) (w1 ++ [Closed (fd (Body rp))])
               = S (closes (fd (Body rp)) w)).
  { rewrite closes_app, closes_closed, Hc, closes_app. unfold closes at 2.
    simpl. lia. }
  destruct err as [[Op U [| rq body |]| |]|]; simpl; try done.
  by destruct (StatusCode rq =? 404).
Qed.

Lemma BlobMetadata_closes registry repository digest w rp err :
  (Client_Head registry (blobUrl registry repository digest) w).1
    = Val (Some rp, err) ->
  closes (fd (Body rp)) (BlobMetadata registry repository digest w).2
  = S (closes (fd (Body rp)) w).
Proof.
  intros Hx. unfold BlobMetadata, Logf, emit, bind, deferred at 1. simpl.
  set (line := "registry.blob.check url=" +:+ _).
  pose proof (Client_Head_logged registry (blobUrl registry repository digest) w
    line) as Hl.
  pose proof (Client_Head_closes registry (blobUrl registry repository digest)
    (w ++ [Logged line])) as Hc.
  rewrite Hx in Hl.
  destruct (Client_Head _ _ (w ++ _)) as [o w1]. simpl in Hl, Hc. subst o.
  unfold deferred. simpl.
  destruct err as [e|]; simpl;
    rewrite closes_app, closes_closed, Hc, closes_app; unfold closes at 2;
    simpl; lia.
Qed.

End Probes.

(** ** Session initiation *)

Ltac run :=
  unfold bind, ret, deref, deferred, Logf, Close, ReadFrom, emit,
    close_if_present; simpl.

Section Session.
Context `{NetURL} `{ErrorText}.


(** The value of initiateUpload, read off the POST exchange. *)
Lemma initiateUpload_value registry repository w resp err :
  (Client_Post registry (initiateUrl registry repository)
     "application/octet-stream" None w).1 = Val (resp, err) ->
  (initiateUpload registry repository w).1
  = match err, resp with
    | Some e, _ => Val (None, Some e)
    | None, None => Panic
    | None, Some rp =>
        match Parse (Header_Get (Header rp) "Location") with
        | inr e => Val (None, Some e)
        | inl u => Val (Some u, None)
        end
    end.
Proof.
  intros Hx. unfold initiateUpload. fold (initiateUrl registry repository).
  set (line := "registry.blob.initiate-upload url=" +:+ _).
  pose proof (Client_Post_logged registry (initiateUrl registry repository)
    "application/octet-stream" None w line) as Hl.
  rewrite Hx in Hl. run.
  destruct (Client_Post _ _ _ _ (w ++ _)) as [o w1]. simpl in Hl. subst o.
  destruct err as [e|], resp as [rp|]; simpl; try done.
  by destruct (Parse _).
Qed.

(** initiateUpload closes the body of the response it got, once. *)
Lemma initiateUpload_closes registry repository w rp err :
  (Client_Post registry (initiateUrl registry repository)
     "application/octet-stream" None w).1 = Val (Some rp, err) ->
  closes (fd (Body rp)) (initiateUpload registry repository w).2
  = S (closes (fd (Body rp)) w).
Proof.
  intros Hx. unfold initiateUpload. fold (initiateUrl registry repository).
  set (line := "registry.blob.initiate-upload url=" +:+ _).
  pose proof (Client_Post_logged registry (initiateUrl registry repository)
    "application/octet-stream" None w line) as Hl.
  pose proof (Client_Post_closes registry (initiateUrl registry repository)
    "application/octet-stream" None (w ++ [Logged line])) as Hc.
  rewrite Hx in Hl. run.
  destruct (Client_Post _ _ _ _ (w ++ _)) as [o w1]. simpl in Hl, Hc. subst o.
  simpl. destruct err as [e|]; simpl.
  - rewrite closes_app, closes_closed, Hc, closes_app. unfold closes at 2.
    simpl. lia.
  - destruct (Parse _); simpl;
      rewrite closes_app, closes_closed, Hc, closes_app; unfold closes at 2;
      simpl; lia.
Qed.

(** initiateUpload sends nothing but its POST. *)
Lemma initiateUpload_requests registry repository w :
  exists sent, requests (initiateUpload registry repository w).2
               = requests w ++ sent
               /\ Forall (fun r => Method r = "POST") sent.
Proof.
  unfold initiateUpload. fold (initiateUrl registry repository). run.
  unfold Client_Post.
  destruct (NewRequest "POST" _ None) as [req|e] eqn:Hn; simpl.
  - rewrite Client_Do_run. simpl.
    exists [Request_Header_Set req "Content-Type" "application/octet-stream"].
    apply NewRequest_inl in Hn. subst req. split; [|by repeat constructor].
    destruct (Client registry _ _) as [[rp|] [e|]]; simpl;
      try destruct (Parse _); simpl; by autorewrite with trace.
  - exists []. split; [|constructor]. by autorewrite with trace list.
Qed.

Lemma initiateUpload_sends_no (method : string) registry repository w :
  method <> "POST" ->
  sent_with method (initiateUpload registry repository w).2
  = sent_with method w.
Proof.
  intros Hm. destruct (initiateUpload_requests registry repository w)
    as (sent & Hr & Hp).
  unfold sent_with. rewrite Hr, List.filter_app.
  replace (List.filter _ sent) with (@nil Request); [by rewrite app_nil_r|].
  clear Hr. induction Hp as [|r sent Hr' _ IH]; [done|]. simpl. rewrite Hr'.
  destruct (String.eqb_spec "POST" method); [congruence|done].
Qed.

(** C5, amended.  initiateUpload returns the POST exchange's error unchanged
    when there is one, and the parse error when the Location value does not
    parse; otherwise it returns the parsed Location, whatever the status
    code of the response; whenever the exchange returned a response, its
    body is closed exactly once before initiateUpload returns. *)
Theorem initiateUpload_outcome registry repository w resp err :
  (Client_Post registry (initiateUrl registry repository)
     "application/octet-stream" None w).1 = Val (resp, err) ->
  (forall e, err = Some e ->
     (initiateUpload registry repository w).1 = Val (None, Some e))
  /\ (forall rp e, err = None -> resp = Some rp ->
        Parse (Header_Get (Header rp) "Location") = inr e ->
        (initiateUpload registry repository w).1 = Val (None, Some e))
  /\ (forall rp u, err = None -> resp = Some rp ->
        Parse (Header_Get (Header rp) "Location") = inl u ->
        (initiateUpload registry repository w).1 = Val (Some u, None))
  /\ (forall rp, resp = Some rp ->
        closes (fd (Body rp)) (initiateUpload registry repository w).2
        = S (closes (fd (Body rp)) w)).
Proof.
  intros Hx. pose proof (initiateUpload_value _ _ _ _ _ Hx) as Hv.
  repeat split.
  - intros e ->. by rewrite Hv.
  - intros rp e -> -> Hp. by rewrite Hv, Hp.
  - intros rp u -> -> Hp. by rewrite Hv, Hp.
  - intros rp ->. by eapply initiateUpload_closes.
Qed.

End Session.

(** ** Text of error messages *)

Lemma prefix_app (a b : string) : String.prefix a (a +:+ b) = true.
Proof.
  induction a as [|c a IH]; simpl; [by destruct b|].
  destruct (ascii_dec c c); [done|congruence].
Qed.

Lemma Contains_here (a b : string) : Contains (a +:+ b) a = true.
Proof.
  destruct a as [|c a]; simpl.
  - by destruct b.
  - destruct (ascii_dec c c); [|congruence]. by rewrite prefix_app.
Qed.

Lemma Contains_prefixed (pre s a : string) :
  Contains s a = true -> Contains (pre +:+ s) a = true.
Proof.
  intros Hs. induction pre as [|c pre IH]; [done|].
  change (String.prefix a (String c (pre +:+ s)) || Contains (pre +:+ s) a
          = true).
  rewrite IH. apply orb_true_r.
Qed.

Lemma append_empty (a : string) : a +:+ "" = a.
Proof.
  induction a as [|c a IH]; [done|].
  change (String c (a +:+ "") = String c a). by rewrite IH.
Qed.

Lemma Contains_refl (a : string) : Contains a a = true.
Proof. pose proof (Contains_here a "") as Hc. by rewrite append_empty in Hc. Qed.

(** Finds the needle among the pieces of a message. *)
Ltac contains :=
  repeat first
    [ apply Contains_here | apply Contains_refl | apply Contains_prefixed ].

(** ** Uploads *)

Section Uploads.
Context `{NetURL} `{ErrorText}.

Lemma attach_GetBody_fields (r : Request) getBody :
  Method (attach_GetBody r getBody) = Method r
  /\ Target (attach_GetBody r getBody) = Target r
  /\ ReqHeader (attach_GetBody r getBody) = ReqHeader r
  /\ ReqBody (attach_GetBody r getBody) = ReqBody r.
Proof. by destruct getBody. Qed.

Lemma Header_Get_Set (h : gmap string (list string)) (key value : string) :
  Header_Get (Header_Set h key value) key = value.
Proof. unfold Header_Get, Header_Set. by rewrite lookup_insert_eq. Qed.

Lemma Header_Get_Set_ne (h : gmap string (list string)) (key key' value : string) :
  key <> key' -> Header_Get (Header_Set h key value) key' = Header_Get h key'.
Proof. intros Hne. unfold Header_Get, Header_Set. by rewrite lookup_insert_ne. Qed.

(** After a session, UploadBlob sends one request, the PUT. *)
Lemma UploadBlob_request registry repository digest content getBody w u w1
    upload :
  initiateUpload registry repository w = (Val (Some u, None), w1) ->
  NewRequest "PUT" (URL_String (with_digest u digest)) (Some content)
    = inl upload ->
  requests (UploadBlob registry repository digest content getBody w).2
  = requests w1 ++ [octet_request upload getBody].
Proof.
  intros Hs Hn. unfold UploadBlob. run. rewrite Hs. simpl.
  rewrite Hn. fold (octet_request upload getBody).
  rewrite Client_Do_run. simpl.
  destruct (Client registry _ _) as [[rp|] [e|]]; simpl;
    by autorewrite with trace.
Qed.

Lemma octet_request_fields (method url : string) (body : option Reader) getBody :
  let req := octet_request
    {| Method := method; Target := url; ReqHeader := ∅; ReqBody := body;
       GetBody := None |} getBody in
  Method req = method /\ Target req = url /\ ReqBody req = body
  /\ Header_Get (ReqHeader req) "Content-Type" = "application/octet-stream".
Proof.
  simpl. unfold octet_request.
  destruct (attach_GetBody_fields
    (Request_Header_Set
       {| Method := method; Target := url; ReqHeader := ∅; ReqBody := body;
          GetBody := None |} "Content-Type" "application/octet-stream")
    getBody) as (-> & -> & -> & ->).
  simpl. by rewrite Header_Get_Set.
Qed.

(** C7.  UploadBlob returns nil exactly when initiateUpload returned a
    session location without error and the PUT, built on that location with
    the digest set in its query, was sent and answered by a response without
    error, whatever the status code.  After a session, the upload sends one
    request: a PUT with Content-Type application/octet-stream and the content
    as body, whose target is the session location with its query replaced by
    the encoding of the location's own query values in which the key digest
    holds the caller's digest and nothing else. *)
Theorem UploadBlob_monolithic registry repository digest content getBody w :
  let bound (u : URL) :=
    URL_String
      (set_RawQuery u
         (Values_Encode (<["digest" := [digest]]> (ParseQuery (RawQuery u)))))
  in
  ((UploadBlob registry repository digest content getBody w).1 = Val None <->
   exists u w1 upload rp,
     initiateUpload registry repository w = (Val (Some u, None), w1)
     /\ NewRequest "PUT" (bound u) (Some content) = inl upload
     /\ (Client_Do registry (octet_request upload getBody) w1).1
        = Val (Some rp, None))
  /\ (forall u w1 upload,
        initiateUpload registry repository w = (Val (Some u, None), w1) ->
        NewRequest "PUT" (bound u) (Some content) = inl upload ->
        exists put,
          requests (UploadBlob registry repository digest content getBody w).2
            = requests w1 ++ [put]
          /\ Method put = "PUT"
          /\ Target put = bound u
          /\ Header_Get (ReqHeader put) "Content-Type"
             = "application/octet-stream"
          /\ ReqBody put = Some content).
Proof.
  intros bound.
  change (fun u : URL => URL_String (with_digest u digest)) in (value of bound).
  subst bound. cbv beta.
  split.
  - unfold UploadBlob. run.
    destruct (initiateUpload registry repository w)
      as [[[[u|] [e|]]|] w1] eqn:Hs; simpl.
    1,3,4,5: split; [done|]; by intros (? & ? & ? & ? & [=] & _).
    destruct (NewRequest "PUT" _ _) as [upload|e] eqn:Hn; simpl.
    2: { split; [done|]. intros (? & ? & ? & ? & [= <- <-] & Hn' & _).
         rewrite Hn in Hn'. done. }
    fold (octet_request upload getBody).
    rewrite !Client_Do_run, requests_logged. simpl.
    destruct (Client registry (requests w1) (octet_request upload getBody))
      as [[rp|] [e|]] eqn:Hc; simpl.
    + split; [done|]. intros (? & ? & ? & ? & [= <- <-] & Hn' & Hd).
      rewrite Hn in Hn'. injection Hn' as <-. rewrite Client_Do_run, Hc in Hd.
      done.
    + split; [|done]. intros _. exists u, w1, upload, (with_fd (length (requests w1)) rp).
      by rewrite Client_Do_run, Hc.
    + split; [done|]. intros (? & ? & ? & ? & [= <- <-] & Hn' & Hd).
      rewrite Hn in Hn'. injection Hn' as <-. rewrite Client_Do_run, Hc in Hd.
      done.
    + split; [done|]. intros (? & ? & ? & ? & [= <- <-] & Hn' & Hd).
      rewrite Hn in Hn'. injection Hn' as <-. rewrite Client_Do_run, Hc in Hd.
      done.
  - intros u w1 upload Hs Hn. exists (octet_request upload getBody).
    split; [by apply (UploadBlob_request _ _ _ _ _ _ u)|].
    apply NewRequest_inl in Hn. subst upload.
    destruct (octet_request_fields "PUT" (URL_String (with_digest u digest))
      (Some content) getBody) as (? & ? & ? & ?).
    done.
Qed.

Lemma sent_with_sent (m : string) (w : World) (req : Request) :
  Method req <> m -> sent_with m (w ++ [Sent req]) = sent_with m w.
Proof.
  intros Hm. rewrite sent_with_app. unfold sent_with at 2. simpl.
  destruct (String.eqb_spec (Method req) m); [done|]. apply app_nil_r.
Qed.

Lemma sent_with_other (m : string) (w : World) (e : Event) :
  (forall r, e <> Sent r) -> sent_with m (w ++ [e]) = sent_with m w.
Proof.
  intros He. rewrite sent_with_app.
  destruct e; try (exfalso; by eapply He); apply app_nil_r.
Qed.

(** The revision with [completeChunkedUploadBlob] stops after a PATCH that
    is answered by a status other than 202: the error carries the status
    text and the body text, and no PUT is sent. *)
Lemma UploadChunkedBlob_phase1_rejected registry repository digest content
    getBody w u w1 upload rp :
  initiateUpload registry repository w = (Val (Some u, None), w1) ->
  NewRequest "PATCH" (URL_String u) (Some content) = inl upload ->
  (Client_Do registry (octet_request upload getBody) w1).1
    = Val (Some rp, None) ->
  StatusCode rp <> 202 ->
  exists msg,
    (UploadChunkedBlob registry repository digest content getBody w).1
      = Val (Some (errorString msg))
    /\ Contains msg (Status rp) = true
    /\ Contains msg (bytes (Body rp)) = true
    /\ sent_with "PUT"
         (UploadChunkedBlob registry repository digest content getBody w).2
       = sent_with "PUT" w.
Proof.
  intros Hs Hn Hd Hc.
  pose proof (initiateUpload_sends_no "PUT" registry repository w) as Hp.
  rewrite Hs in Hp. simpl in Hp. rewrite <- Hp by done. clear Hp.
  unfold UploadChunkedBlob. run. rewrite Hs. simpl.
  rewrite Hn. fold (octet_request upload getBody).
  rewrite Client_Do_run in Hd |- *. rewrite requests_logged. simpl in Hd |- *.
  destruct (Client registry (requests w1) (octet_request upload getBody))
    as [[rp0|] [e|]]; simpl in Hd; try done.
  injection Hd as <-. simpl.
  destruct (StatusCode rp0 =? 202) eqn:Hq; [by apply Z.eqb_eq in Hq|]. simpl.
  eexists. split; [done|]. split; [|split].
  - contains.
  - contains.
  - rewrite sent_with_other by done.
    rewrite sent_with_sent, sent_with_other; [done|done|].
    apply NewRequest_inl in Hn. subst upload. unfold octet_request.
    destruct (attach_GetBody_fields
      (Request_Header_Set
         {| Method := "PATCH"; Target := URL_String u; ReqHeader := ∅;
            ReqBody := Some content; GetBody := None |}
         "Content-Type" "application/octet-stream") getBody) as (-> & _).
    done.
Qed.

(** In the same revision, after a PATCH answered by 202, a finalizing PUT
    answered by a status other than 201 makes the upload fail with an error
    that carries the status text and the body text of that answer. *)
Lemma UploadChunkedBlob_phase2_rejected registry repository digest content
    getBody w u w1 patch upload rp1 rp2 :
  initiateUpload registry repository w = (Val (Some u, None), w1) ->
  NewRequest "PATCH" (URL_String u) (Some content) = inl patch ->
  (Client_Do registry (octet_request patch getBody) w1).1
    = Val (Some rp1, None) ->
  StatusCode rp1 = 202 ->
  NewRequest "PUT" (URL_String (with_digest u digest)) None = inl upload ->
  (Client_Do registry (finalize_put upload getBody)
     (w1 ++ [Sent (octet_request patch getBody)])).1 = Val (Some rp2, None) ->
  StatusCode rp2 <> 201 ->
  exists msg,
    (UploadChunkedBlob registry repository digest content getBody w).1
      = Val (Some (errorString msg))
    /\ Contains msg (Status rp2) = true
    /\ Contains msg (bytes (Body rp2)) = true.
Proof.
  intros Hs Hn Hd Hc Hn2 Hd2 Hc2. unfold UploadChunkedBlob. run. rewrite Hs.
  simpl. rewrite Hn. fold (octet_request patch getBody).
  rewrite Client_Do_run in Hd, Hd2 |- *. rewrite requests_logged.
  simpl in Hd, Hd2 |- *.
  destruct (Client registry (requests w1) (octet_request patch getBody))
    as [[rp|] [e|]]; simpl in Hd; try done.
  injection Hd as <-. simpl in Hc |- *. rewrite Hc. simpl.
  unfold completeChunkedUploadBlob. run. rewrite Hn2.
  fold (finalize_put upload getBody). rewrite Client_Do_run. simpl.
  autorewrite with trace in Hd2 |- *.
  destruct (Client registry (requests w1 ++ [octet_request patch getBody])
    (finalize_put upload getBody)) as [[rq|] [e|]]; simpl in Hd2; try done.
  injection Hd2 as <-. simpl in Hc2 |- *.
  destruct (StatusCode rq =? 201) eqn:Hq; [by apply Z.eqb_eq in Hq|]. simpl.
  eexists. split; [done|]. split; contains.
Qed.

(** In the same revision the PATCH goes to the session location as
    initiateUpload returned it, and the finalizing PUT to that location with
    the digest set in its query, with no body and with the headers
    Content-Length 0 and Content-Range 0-0. *)
Lemma UploadChunkedBlob_requests registry repository digest content getBody
    w u w1 patch upload rp1 :
  initiateUpload registry repository w = (Val (Some u, None), w1) ->
  NewRequest "PATCH" (URL_String u) (Some content) = inl patch ->
  (Client_Do registry (octet_request patch getBody) w1).1
    = Val (Some rp1, None) ->
  StatusCode rp1 = 202 ->
  NewRequest "PUT" (URL_String (with_digest u digest)) None = inl upload ->
  exists first last,
    requests (UploadChunkedBlob registry repository digest content getBody w).2
      = requests w1 ++ [first; last]
    /\ Method first = "PATCH" /\ Target first = URL_String u
    /\ ReqBody first = Some content
    /\ Method last = "PUT"
    /\ Target last = URL_String (with_digest u digest)
    /\ ReqBody last = None
    /\ Header_Get (ReqHeader last) "Content-Length" = "0"
    /\ Header_Get (ReqHeader last) "Content-Range" = "0-0".
Proof.
  intros Hs Hn Hd Hc Hn2. unfold UploadChunkedBlob. run. rewrite Hs.
  simpl. rewrite Hn. fold (octet_request patch getBody).
  rewrite Client_Do_run in Hd |- *. rewrite requests_logged.
  simpl in Hd |- *.
  destruct (Client registry (requests w1) (octet_request patch getBody))
    as [[rp|] [e|]]; simpl in Hd; try done.
  injection Hd as <-. simpl in Hc |- *. rewrite Hc. simpl.
  unfold completeChunkedUploadBlob. run. rewrite Hn2.
  fold (finalize_put upload getBody). rewrite Client_Do_run. simpl.
  exists (octet_request patch getBody), (finalize_put upload getBody).
  apply NewRequest_inl in Hn, Hn2. subst patch upload.
  unfold octet_request, finalize_put.
  split.
  - destruct (with_fd _ <$> _) as [rp2|], (Client registry _ _).2 as [e|];
      simpl; try destruct (negb _); simpl;
      rewrite ?requests_app; simpl; rewrite ?requests_logged, ?app_nil_r;
      rewrite <- ?app_assoc; done.
  - destruct (attach_GetBody_fields
      (Request_Header_Set
         {| Method := "PATCH"; Target := URL_String u; ReqHeader := ∅;
            ReqBody := Some content; GetBody := None |}
         "Content-Type" "application/octet-stream") getBody)
      as (-> & -> & _ & ->).
    destruct (attach_GetBody_fields
      (Request_Header_Set
         (Request_Header_Set
            (Request_Header_Set
               {| Method := "PUT"; Target := URL_String (with_digest u digest);
                  ReqHeader := ∅; ReqBody := None; GetBody := None |}
               "Content-Type" "application/octet-stream")
            "Content-Range" "0-0")
         "Content-Length" "0") getBody)
      as (-> & -> & -> & ->).
    simpl. rewrite Header_Get_Set, Header_Get_Set_ne, Header_Get_Set by done.
    done.
Qed.




End Uploads.

(** ** The operations on example registries *)

Lemma HasBlob_classifies_witness :
  (HasBlob (example_registry [(Some (reply 200 "200 OK" ∅ ""), None)]) "app"
     example_digest []).1 = Val (true, None)
  /\ (HasBlob (example_registry [(None, Some not_found_error)]) "app"
        example_digest []).1 = Val (false, None)
  /\ (HasBlob (example_registry [(None, Some connection_refused)]) "app"
        example_digest []).1 = Val (false, Some connection_refused).
Proof.
  split; [|split].
  - refine (proj1 (HasBlob_classifies
      (example_registry [(Some (reply 200 "200 OK" ∅ ""), None)]) "app"
      example_digest [] (Some (reply 200 "200 OK" ∅ "")) None _)
      (reply 200 "200 OK" ∅ "") eq_refl eq_refl eq_refl).
    vm_compute. reflexivity.
  - refine (proj1 (proj2 (HasBlob_classifies
      (example_registry [(None, Some not_found_error)]) "app" example_digest
      [] None (Some not_found_error) _)) not_found_error eq_refl _).
    + vm_compute. reflexivity.
    + unfold NotFound, not_found_error. repeat eexists.
  - refine (proj2 (proj2 (HasBlob_classifies
      (example_registry [(None, Some connection_refused)]) "app"
      example_digest [] None (Some connection_refused) _))
      connection_refused eq_refl _).
    + vm_compute. reflexivity.
    + intros (? & ? & ? & ? & [=] & _).
Defined.

Lemma BlobMetadata_descriptor_witness :
  (exists d,
     (BlobMetadata (example_registry [(Some blob_present, None)]) "app"
        example_digest []).1 = Val (d, None)
     /\ Digest_ d = example_digest /\ Size d = 5120)
  /\ (BlobMetadata (example_registry [(None, Some not_found_error)]) "app"
        example_digest []).1 = Val (Descriptor_zero, Some not_found_error).
Proof.
  split.
  - refine (proj1 (BlobMetadata_descriptor
      (example_registry [(Some blob_present, None)]) "app" example_digest []
      (Some blob_present) None _) blob_present eq_refl eq_refl).
    vm_compute. reflexivity.
  - refine (proj2 (BlobMetadata_descriptor
      (example_registry [(None, Some not_found_error)]) "app" example_digest
      [] None (Some not_found_error) _) not_found_error eq_refl).
    vm_compute. reflexivity.
Defined.

Lemma DownloadBlob_stream_witness :
  (DownloadBlob (example_registry [(None, Some connection_refused)]) "app"
     example_digest []).1 = Val (None, Some connection_refused)
  /\ (DownloadBlob (example_registry [(Some blob_unknown, None)]) "app"
        example_digest []).1 = Val (Some (Body blob_unknown), None)
  /\ closes 0
       (DownloadBlob (example_registry [(Some blob_unknown, None)]) "app"
          example_digest []).2 = 0%nat.
Proof.
  split.
  - refine (proj1 (DownloadBlob_stream
      (example_registry [(None, Some connection_refused)]) "app"
      example_digest [] None (Some connection_refused) _)
      connection_refused eq_refl).
    vm_compute. reflexivity.
  - refine (proj1 (proj2 (DownloadBlob_stream
      (example_registry [(Some blob_unknown, None)]) "app" example_digest []
      (Some blob_unknown) None _)) blob_unknown eq_refl eq_refl).
    vm_compute. reflexivity.
Defined.

(** C5 as stated fails: the POST is answered by status 500 without an error,
    and initiateUpload returns a URL and a nil error. *)
Lemma initiateUpload_status_unchecked :
  (Client_Post (example_registry [server_error "boom"])
     (initiateUrl (example_registry [server_error "boom"]) "app")
     "application/octet-stream" None []).1
  = Val (Some (reply 500 "500 Internal Server Error" ∅ "boom"), None)
  /\ (initiateUpload (example_registry [server_error "boom"]) "app" []).1
     = Val (Some URL_zero, None).
Proof. split; vm_compute; reflexivity. Qed.

Lemma initiateUpload_outcome_witness :
  (initiateUpload (example_registry [(None, Some connection_refused)]) "app"
     []).1 = Val (None, Some connection_refused)
  /\ (initiateUpload (example_registry [malformed_location]) "app" []).1
     = Val (None,
            Some (UrlError "parse" ":7f3c"
                    (errorString "missing protocol scheme")))
  /\ (initiateUpload (example_registry [rejected_session]) "app" []).1
     = Val (Some session_url, None)
  /\ closes 0 (initiateUpload (example_registry [rejected_session]) "app" []).2
     = 1%nat.
Proof.
  split; [|split; [|split]].
  - refine (proj1 (initiateUpload_outcome
      (example_registry [(None, Some connection_refused)]) "app" [] None
      (Some connection_refused) _) connection_refused eq_refl).
    vm_compute. reflexivity.
  - refine (proj1 (proj2 (initiateUpload_outcome
      (example_registry [malformed_location]) "app" []
      malformed_location.1 None _)) _ _ eq_refl eq_refl _);
      vm_compute; reflexivity.
  - refine (proj1 (proj2 (proj2 (initiateUpload_outcome
      (example_registry [rejected_session]) "app" []
      rejected_session.1 None _))) _ _ eq_refl eq_refl _);
      vm_compute; reflexivity.
  - refine (proj2 (proj2 (proj2 (initiateUpload_outcome
      (example_registry [rejected_session]) "app" []
      rejected_session.1 None _))) _ eq_refl).
    vm_compute. reflexivity.
Defined.

Example session_with_digest :
  URL_String (with_digest session_url example_digest)
  = "https://registry.example/v2/app/blobs/uploads/7f3c?digest=sha256%3Aab12".
Proof. vm_compute. reflexivity. Qed.

Lemma UploadBlob_monolithic_witness :
  (UploadBlob put_rejected "app" example_digest "layer" None []).1 = Val None
  /\ exists put,
       requests (UploadBlob put_rejected "app" example_digest "layer" None []).2
       = requests (initiateUpload put_rejected "app" []).2 ++ [put]
       /\ Method put = "PUT"
       /\ Target put
          = "https://registry.example/v2/app/blobs/uploads/7f3c?digest=sha256%3Aab12"
       /\ Header_Get (ReqHeader put) "Content-Type" = "application/octet-stream"
       /\ ReqBody put = Some "layer".
Proof.
  split.
  - apply (proj2 (proj1 (UploadBlob_monolithic put_rejected "app"
      example_digest "layer" None []))).
    exists session_url. do 3 eexists.
    split; [vm_compute; reflexivity|]. split; vm_compute; reflexivity.
  - destruct (proj2 (UploadBlob_monolithic put_rejected "app" example_digest
      "layer" None []) session_url (initiateUpload put_rejected "app" []).2
      (bare_request "PUT"
         "https://registry.example/v2/app/blobs/uploads/7f3c?digest=sha256%3Aab12"
         (Some "layer")))
      as (put & Hr & Hm & Ht & Hc & Hb).
    + vm_compute. reflexivity.
    + vm_compute. reflexivity.
    + exists put. split; [exact Hr|]. split; [exact Hm|].
      split; [|split; [exact Hc|exact Hb]].
      rewrite Ht. vm_compute. reflexivity.
Defined.


Example empty_location_target :
  URL_String (with_digest URL_zero example_digest) = "?digest=sha256%3Aab12".
Proof. vm_compute. reflexivity. Qed.

(** ** Where the two chunked uploads part *)

(** C2 at the failing input: the PATCH is answered by 202 and the PUT by 500
    without an error.  UploadBlobToArtifactory sends all three requests and
    returns nil; UploadChunkedBlob returns the error with the status text and
    the body text. *)
Theorem UploadBlobToArtifactory_finalize_unchecked :
  (UploadBlobToArtifactory finalize_rejected "app" example_digest "layer" None
     []).1 = Val None
  /\ Method <$> requests
       (UploadBlobToArtifactory finalize_rejected "app" example_digest "layer"
          None []).2 = ["POST"; "PATCH"; "PUT"]
  /\ (UploadChunkedBlob finalize_rejected "app" example_digest "layer" None
        []).1
     = Val (Some (errorString
         ("retrieving https://registry.example/v2/app/blobs/uploads/7f3c"
          +:+ "?digest=sha256%3Aab12 returned 500 Internal Server Error"
          +:+ " response: blob unknown"))).
Proof. repeat split; vm_compute; reflexivity. Qed.

(** C3 at the failing input: the PATCH is answered by 500 with the body
    text boom.  Neither revision sends a PUT; the error of
    UploadBlobToArtifactory has the status text but not the body text, the
    error of UploadChunkedBlob has both. *)
Theorem UploadBlobToArtifactory_phase1_message :
  (exists msg,
     (UploadBlobToArtifactory transfer_rejected "app" example_digest "layer"
        None []).1 = Val (Some (errorString msg))
     /\ Contains msg "500 Internal Server Error" = true
     /\ Contains msg "boom" = false)
  /\ sent_with "PUT"
       (UploadBlobToArtifactory transfer_rejected "app" example_digest "layer"
          None []).2 = []
  /\ (exists msg,
        (UploadChunkedBlob transfer_rejected "app" example_digest "layer" None
           []).1 = Val (Some (errorString msg))
        /\ Contains msg "500 Internal Server Error" = true
        /\ Contains msg "boom" = true)
  /\ sent_with "PUT"
       (UploadChunkedBlob transfer_rejected "app" example_digest "layer" None
          []).2 = [].
Proof.
  split; [|split; [|split]].
  - eexists. split; [vm_compute; reflexivity|]. split; vm_compute; reflexivity.
  - vm_compute. reflexivity.
  - eexists. split; [vm_compute; reflexivity|]. split; vm_compute; reflexivity.
  - vm_compute. reflexivity.
Qed.

(** C4 at the failing input, a registry that answers every step as the
    protocol expects.  UploadBlobToArtifactory sends its PATCH to the session
    location with the digest already in the query, and its PUT without the
    Content-Length and Content-Range headers; UploadChunkedBlob sends the
    PATCH to the session location as it came and the PUT with both. *)
Theorem UploadBlobToArtifactory_digest_on_patch :
  line_of <$> requests
    (UploadBlobToArtifactory conformant "app" example_digest "layer" None []).2
  = [("POST", "https://registry.example/v2/app/blobs/uploads/");
     ("PATCH",
      "https://registry.example/v2/app/blobs/uploads/7f3c?digest=sha256%3Aab12");
     ("PUT",
      "https://registry.example/v2/app/blobs/uploads/7f3c?digest=sha256%3Aab12")]
  /\ framing_of <$> sent_with "PUT"
       (UploadBlobToArtifactory conformant "app" example_digest "layer" None
          []).2 = [("", "")]
  /\ line_of <$> requests
       (UploadChunkedBlob conformant "app" example_digest "layer" None []).2
     = [("POST", "https://registry.example/v2/app/blobs/uploads/");
        ("PATCH", "https://registry.example/v2/app/blobs/uploads/7f3c");
        ("PUT",
         "https://registry.example/v2/app/blobs/uploads/7f3c?digest=sha256%3Aab12")]
  /\ framing_of <$> sent_with "PUT"
       (UploadChunkedBlob conformant "app" example_digest "layer" None []).2
     = [("0", "0-0")].
Proof. repeat split; vm_compute; reflexivity. Qed.

(** C6 at the failing inputs.  UploadChunkedBlob drains the body of a PATCH
    answer other than 202 and returns without closing it, and
    completeChunkedUploadBlob does the same with a PUT answer other than
    201; UploadBlobToArtifactory drops the PUT answer without closing its
    body even when the upload succeeds.  Bodies are numbered by request:
    0 the POST, 1 the PATCH, 2 the PUT. *)
Theorem chunked_upload_bodies_left_open :
  (let w := (UploadChunkedBlob transfer_rejected "app" example_digest "layer"
               None []).2 in
   closes 0 w = 1%nat /\ drains 1 w = 1%nat /\ closes 1 w = 0%nat)
  /\ (let w := (UploadChunkedBlob finalize_rejected "app" example_digest
                  "layer" None []).2 in
      closes 1 w = 1%nat /\ drains 2 w = 1%nat /\ closes 2 w = 0%nat)
  /\ (let w := (UploadBlobToArtifactory conformant "app" example_digest
                  "layer" None []).2 in
      (UploadBlobToArtifactory conformant "app" example_digest "layer" None
         []).1 = Val None
      /\ closes 1 w = 1%nat /\ closes 2 w = 0%nat)
  /\ (let w := (UploadChunkedBlob conformant "app" example_digest "layer" None
                  []).2 in
      closes 0 w = 1%nat /\ closes 1 w = 1%nat /\ closes 2 w = 1%nat).
Proof. repeat split; vm_compute; reflexivity. Qed.

(** ** Further properties of the probes and the download *)

Section SingleExchange.
Context `{NetURL} `{ErrorText}.

Lemma NewRequest_run (method url : string) (body : option Reader) :
  NewRequest method url body
  = match Parse url with
    | inr e => inr e
    | inl _ => inl (bare_request method url body)
    end.
Proof. reflexivity. Qed.

Lemma closes_sent (n : nat) (w : World) (req : Request) :
  closes n (w ++ [Sent req]) = closes n w.
Proof. rewrite closes_app. unfold closes at 2. simpl. lia. Qed.

Lemma closes_logged (n : nat) (w : World) (line : string) :
  closes n (w ++ [Logged line]) = closes n w.
Proof. rewrite closes_app. unfold closes at 2. simpl. lia. Qed.

Lemma closes_drained (n m : nat) (w : World) :
  closes n (w ++ [Drained m]) = closes n w.
Proof. rewrite closes_app. unfold closes at 2. simpl. lia. Qed.

Lemma closes_other (n m : nat) (w : World) :
  n <> m -> closes n (w ++ [Closed m]) = closes n w.
Proof.
  intros Hne. rewrite closes_app. unfold closes at 2. simpl.
  destruct (Nat.eqb_spec n m); [done|simpl; lia].
Qed.

Lemma closes_same (n : nat) (w : World) :
  closes n (w ++ [Closed n]) = S (closes n w).
Proof. rewrite closes_app, closes_closed. lia. Qed.

Lemma drains_event (n : nat) (w : World) (e : Event) :
  (forall m, e <> Drained m) -> drains n (w ++ [e]) = drains n w.
Proof.
  intros He. unfold drains. rewrite List.filter_app, length_app.
  destruct e; simpl; try lia. by destruct (He body).
Qed.

(** X2.  HasBlob and BlobMetadata close the body of the response their HEAD
    exchange returned exactly once, whether or not an error came with
    it. *)
Theorem probes_close_body registry repository digest w rp err :
  (Client_Head registry (blobUrl registry repository digest) w).1
    = Val (Some rp, err) ->
  closes (fd (Body rp)) (HasBlob registry repository digest w).2
  = S (closes (fd (Body rp)) w)
  /\ closes (fd (Body rp)) (BlobMetadata registry repository digest w).2
     = S (closes (fd (Body rp)) w).
Proof.
  intros Hx. split.
  - by eapply HasBlob_closes.
  - by eapply BlobMetadata_closes.
Qed.

(** X1.  HasBlob answers (false, nil) when the HEAD exchange returns a
    response without error whose status is anything but 200. *)
Theorem HasBlob_other_status registry repository digest w rp :
  (Client_Head registry (blobUrl registry repository digest) w).1
    = Val (Some rp, None) ->
  StatusCode rp <> 200 ->
  (HasBlob registry repository digest w).1 = Val (false, None).
Proof.
  intros Hx Hc. unfold HasBlob, Logf, emit, bind, deferred at 1. simpl.
  set (line := "registry.blob.check url=" +:+ _).
  pose proof (Client_Head_logged registry (blobUrl registry repository digest) w
    line) as Hl.
  rewrite Hx in Hl.
  destruct (Client_Head _ _ (w ++ _)) as [o w1]. simpl in Hl. subst o.
  unfold deferred. simpl.
  destruct (StatusCode rp =? 200) eqn:Hq; [by apply Z.eqb_eq in Hq|done].
Qed.

(** X3.  When the blob URL parses, HasBlob and BlobMetadata each send one
    request and no more: a HEAD to the blob URL with no body and no
    header. *)
Theorem probes_send_one_HEAD registry repository digest w u :
  Parse (blobUrl registry repository digest) = inl u ->
  requests (HasBlob registry repository digest w).2
  = requests w ++ [bare_request "HEAD" (blobUrl registry repository digest) None]
  /\ requests (BlobMetadata registry repository digest w).2
     = requests w
       ++ [bare_request "HEAD" (blobUrl registry repository digest) None].
Proof.
  intros Hp. split.
  - unfold HasBlob. run. unfold Client_Head. rewrite NewRequest_run, Hp.
    rewrite Client_Do_run. simpl.
    destruct (Client registry _ _) as [[rp|] [[Op U [| rq body |]| |]|]];
      simpl; try destruct (StatusCode rq =? 404); simpl;
      by autorewrite with trace.
  - unfold BlobMetadata. run. unfold Client_Head. rewrite NewRequest_run, Hp.
    rewrite Client_Do_run. simpl.
    destruct (Client registry _ _) as [[rp|] [e|]]; simpl;
      by autorewrite with trace.
Qed.

(** X4.  DownloadBlob closes and drains no body on any path; when the blob
    URL parses it sends one request, a GET to the blob URL with no body. *)
Theorem DownloadBlob_effects registry repository digest w :
  (forall n, closes n (DownloadBlob registry repository digest w).2 = closes n w
             /\ drains n (DownloadBlob registry repository digest w).2
                = drains n w)
  /\ (forall u, Parse (blobUrl registry repository digest) = inl u ->
        requests (DownloadBlob registry repository digest w).2
        = requests w
          ++ [bare_request "GET" (blobUrl registry repository digest) None]).
Proof.
  unfold DownloadBlob. run. unfold Client_Get. rewrite NewRequest_run.
  split.
  - intros n. destruct (Parse _) as [u|e]; simpl.
    + rewrite Client_Do_run. simpl.
      destruct (Client registry _ _) as [[rp|] [e|]]; simpl;
        rewrite closes_sent, closes_logged, !drains_event by done; done.
    + by rewrite closes_logged, drains_event.
  - intros u ->. rewrite Client_Do_run. simpl.
    destruct (Client registry _ _) as [[rp|] [e|]]; simpl;
      by autorewrite with trace.
Qed.

(** X5.  When the blob URL does not parse, no request is sent: DownloadBlob
    and BlobMetadata return the parse error, and HasBlob returns false
    with the parse error or, if that error has the not-found shape, with
    nil. *)
Theorem unparseable_blob_url registry repository digest w e :
  Parse (blobUrl registry repository digest) = inr e ->
  (DownloadBlob registry repository digest w).1 = Val (None, Some e)
  /\ requests (DownloadBlob registry repository digest w).2 = requests w
  /\ (BlobMetadata registry repository digest w).1
     = Val (Descriptor_zero, Some e)
  /\ requests (BlobMetadata registry repository digest w).2 = requests w
  /\ ((HasBlob registry repository digest w).1 = Val (false, Some e)
      \/ (NotFound e
          /\ (HasBlob registry repository digest w).1 = Val (false, None)))
  /\ requests (HasBlob registry repository digest w).2 = requests w.
Proof.
  intros Hp. repeat split.
  - unfold DownloadBlob. run. unfold Client_Get. by rewrite NewRequest_run, Hp.
  - unfold DownloadBlob. run. unfold Client_Get. rewrite NewRequest_run, Hp.
    simpl. by autorewrite with trace.
  - unfold BlobMetadata. run. unfold Client_Head. by rewrite NewRequest_run, Hp.
  - unfold BlobMetadata. run. unfold Client_Head. rewrite NewRequest_run, Hp.
    simpl. by autorewrite with trace.
  - unfold HasBlob. run. unfold Client_Head. rewrite NewRequest_run, Hp. simpl.
    destruct e as [Op U [| rq body |]| |]; simpl; try by left.
    destruct (StatusCode rq =? 404) eqn:Hq; [|by left].
    right. split; [|done]. exists Op, U, rq, body. split; [done|lia].
  - unfold HasBlob. run. unfold Client_Head. rewrite NewRequest_run, Hp. simpl.
    destruct e as [Op U [| rq body |]| |]; simpl;
      try destruct (StatusCode rq =? 404); simpl; by autorewrite with trace.
Qed.

(** X6.  The two probes agree on the same registry state: when HasBlob
    answers true, BlobMetadata returns a descriptor for the digest with a
    nil error; when BlobMetadata returns an error, HasBlob answers false,
    with that error or, if it has the not-found shape, with nil. *)
Theorem probes_agree registry repository digest w :
  ((HasBlob registry repository digest w).1 = Val (true, None) ->
   exists d, (BlobMetadata registry repository digest w).1 = Val (d, None)
             /\ Digest_ d = digest)
  /\ (forall d e,
        (BlobMetadata registry repository digest w).1 = Val (d, Some e) ->
        (HasBlob registry repository digest w).1 = Val (false, Some e)
        \/ (NotFound e
            /\ (HasBlob registry repository digest w).1 = Val (false, None))).
Proof.
  unfold HasBlob, BlobMetadata. run.
  destruct (Client_Head registry _ _) as [[[resp err]|] w1]; simpl.
  2: { split; [done|]. intros d e [=]. }
  split.
  - destruct err as [[Op U [| rq body |]| |]|]; simpl;
      try destruct (StatusCode rq =? 404); simpl; try done.
    destruct resp as [rp|]; simpl; [|done]. intros _. by eexists.
  - intros d e. destruct err as [e'|]; simpl.
    + intros [= _ ->].
      destruct e as [Op U [| rq body |]| |]; simpl; try by left.
      destruct (StatusCode rq =? 404) eqn:Hq; [|by left].
      right. split; [|done]. exists Op, U, rq, body. split; [done|lia].
    + destruct resp; simpl; intros [=].
Qed.

(** X7.  With a client that keeps the contract of http.Client (a nil error
    comes with a response) BlobMetadata, DownloadBlob and initiateUpload
    never panic: each reads the response only after the error was found
    nil. *)
Theorem single_exchange_no_panic registry repository digest w :
  responds_or_fails (Client registry) ->
  (BlobMetadata registry repository digest w).1 <> Panic
  /\ (DownloadBlob registry repository digest w).1 <> Panic
  /\ (initiateUpload registry repository w).1 <> Panic.
Proof.
  intros Hok. repeat split.
  all: unfold BlobMetadata, DownloadBlob, initiateUpload, initiateUrl;
    run; unfold Client_Head, Client_Get, Client_Post;
    rewrite NewRequest_run; destruct (Parse _) as [u|e]; simpl; try done;
    rewrite Client_Do_run; simpl.
  all: match goal with
       | |- context [Client ?reg ?h ?r] =>
           let E := fresh "E" in
           destruct (Client reg h r) as [[rp|] [e|]] eqn:E; simpl; try done;
           try (exfalso; apply (Hok h r); by rewrite E)
       end.
  by destruct (Parse _).
Qed.

End SingleExchange.

(** ** Further properties of the uploads *)

Section MoreUploads.
Context `{NetURL} `{ErrorText}.

(** X8.  When initiateUpload returns an error, each upload returns that
    error unchanged and does nothing more: the state is the one
    initiateUpload left. *)
Theorem uploads_stop_at_failed_session registry repository digest content
    getBody w u e w1 :
  initiateUpload registry repository w = (Val (u, Some e), w1) ->
  UploadBlob registry repository digest content getBody w = (Val (Some e), w1)
  /\ UploadChunkedBlob registry repository digest content getBody w
     = (Val (Some e), w1)
  /\ UploadBlobToArtifactory registry repository digest content getBody w
     = (Val (Some e), w1).
Proof.
  intros Hs. unfold UploadBlob, UploadChunkedBlob, UploadBlobToArtifactory.
  run. by rewrite Hs.
Qed.

(** The value of UploadChunkedBlob after a session, read off the two
    exchanges. *)
Lemma UploadChunkedBlob_value registry repository digest content getBody w u
    w1 :
  initiateUpload registry repository w = (Val (Some u, None), w1) ->
  (UploadChunkedBlob registry repository digest content getBody w).1
  = match NewRequest "PATCH" (URL_String u) (Some content) with
    | inr e => Val (Some e)
    | inl patch =>
        match Client registry (requests w1) (octet_request patch getBody) with
        | (_, Some e) => Val (Some e)
        | (None, None) => Panic
        | (Some rp1, None) =>
            if negb (StatusCode rp1 =? 202) then
              Val (Some (errorString
                ("retrieving " +:+ URL_String u +:+ " returned "
                 +:+ Status rp1 +:+ " response: " +:+ bytes (Body rp1))))
            else
              match NewRequest "PUT" (URL_String (with_digest u digest)) None
              with
              | inr e => Val (Some e)
              | inl upload =>
                  match Client registry
                          (requests w1 ++ [octet_request patch getBody])
                          (finalize_put upload getBody) with
                  | (_, Some e) => Val (Some e)
                  | (None, None) => Panic
                  | (Some rp2, None) =>
                      if negb (StatusCode rp2 =? 201) then
                        Val (Some (errorString
                          ("retrieving "
                           +:+ URL_String (with_digest u digest)
                           +:+ " returned " +:+ Status rp2
                           +:+ " response: " +:+ bytes (Body rp2))))
                      else Val None
                  end
              end
        end
    end.
Proof.
  intros Hs. unfold UploadChunkedBlob. run. rewrite Hs. simpl.
  destruct (NewRequest "PATCH" _ _) as [patch|e]; simpl; [|done].
  fold (octet_request patch getBody). rewrite Client_Do_run. simpl.
  autorewrite with trace.
  destruct (Client registry (requests w1) _) as [[rp1|] [e|]]; simpl;
    try done.
  destruct (negb (StatusCode rp1 =? 202)); simpl; [done|].
  unfold completeChunkedUploadBlob. run.
  destruct (NewRequest "PUT" _ _) as [upload|e]; simpl; [|done].
  fold (finalize_put upload getBody). rewrite Client_Do_run. simpl.
  autorewrite with trace.
  destruct (Client registry _ (finalize_put upload getBody))
    as [[rp2|] [e|]]; simpl; try done.
  by destruct (negb (StatusCode rp2 =? 201)).
Qed.

(** X9.  UploadChunkedBlob returns nil exactly when the session was
    obtained, the PATCH was answered by a response with status 202 and no
    error, and the finalizing PUT by a response with status 201 and no
    error. *)
Theorem UploadChunkedBlob_success_iff registry repository digest content
    getBody w :
  (UploadChunkedBlob registry repository digest content getBody w).1 = Val None
  <-> exists u w1 patch rp1 upload rp2,
        initiateUpload registry repository w = (Val (Some u, None), w1)
        /\ NewRequest "PATCH" (URL_String u) (Some content) = inl patch
        /\ (Client_Do registry (octet_request patch getBody) w1).1
           = Val (Some rp1, None)
        /\ StatusCode rp1 = 202
        /\ NewRequest "PUT" (URL_String (with_digest u digest)) None
           = inl upload
        /\ (Client_Do registry (finalize_put upload getBody)
              (w1 ++ [Sent (octet_request patch getBody)])).1
           = Val (Some rp2, None)
        /\ StatusCode rp2 = 201.
Proof.
  split.
  - destruct (initiateUpload registry repository w)
      as [[[[u|] [e|]]|] w1] eqn:Hs.
    1,3,4,5: unfold UploadChunkedBlob; run; by rewrite Hs.
    rewrite (UploadChunkedBlob_value _ _ _ _ _ _ _ _ Hs).
    destruct (NewRequest "PATCH" _ _) as [patch|e] eqn:Hn; [|done].
    destruct (Client registry (requests w1) _) as [[rp1|] [e|]] eqn:Hc1;
      try done.
    destruct (StatusCode rp1 =? 202) eqn:Hq1; simpl; [|done].
    destruct (NewRequest "PUT" _ _) as [upload|e] eqn:Hn2; [|done].
    destruct (Client registry (requests w1 ++ _) _) as [[rp2|] [e|]] eqn:Hc2;
      try done.
    destruct (StatusCode rp2 =? 201) eqn:Hq2; simpl; [|done].
    intros _.
    exists u, w1, patch, (with_fd (length (requests w1)) rp1), upload,
      (with_fd (length (requests w1 ++ [octet_request patch getBody])) rp2).
    rewrite !Client_Do_run. autorewrite with trace. rewrite Hc1, Hc2. simpl.
    repeat split; try done; try by apply Z.eqb_eq.
  - intros (u & w1 & patch & rp1 & upload & rp2 & Hs & Hn & Hd1 & Hq1 & Hn2
            & Hd2 & Hq2).
    rewrite (UploadChunkedBlob_value _ _ _ _ _ _ _ _ Hs), Hn.
    rewrite Client_Do_run in Hd1, Hd2. autorewrite with trace in Hd2.
    simpl in Hd1, Hd2.
    destruct (Client registry (requests w1) _) as [[rq1|] [e|]];
      simpl in Hd1; try done.
    injection Hd1 as <-. simpl in Hq1. rewrite Hq1. simpl. rewrite Hn2.
    destruct (Client registry (requests w1 ++ _) _) as [[rq2|] [e|]];
      simpl in Hd2; try done.
    injection Hd2 as <-. simpl in Hq2. by rewrite Hq2.
Qed.

(** X10.  UploadChunkedBlob returns a transport error of either exchange
    unchanged: an error of the PATCH exchange, after which no PUT is sent,
    and an error of the PUT exchange that follows a PATCH answered by
    202. *)
Theorem UploadChunkedBlob_transport_errors registry repository digest content
    getBody w u w1 patch :
  initiateUpload registry repository w = (Val (Some u, None), w1) ->
  NewRequest "PATCH" (URL_String u) (Some content) = inl patch ->
  (forall resp e,
     (Client_Do registry (octet_request patch getBody) w1).1
       = Val (resp, Some e) ->
     (UploadChunkedBlob registry repository digest content getBody w).1
       = Val (Some e)
     /\ sent_with "PUT"
          (UploadChunkedBlob registry repository digest content getBody w).2
        = sent_with "PUT" w)
  /\ (forall rp1 upload resp e,
        (Client_Do registry (octet_request patch getBody) w1).1
          = Val (Some rp1, None) ->
        StatusCode rp1 = 202 ->
        NewRequest "PUT" (URL_String (with_digest u digest)) None
          = inl upload ->
        (Client_Do registry (finalize_put upload getBody)
           (w1 ++ [Sent (octet_request patch getBody)])).1
          = Val (resp, Some e) ->
        (UploadChunkedBlob registry repository digest content getBody w).1
          = Val (Some e)).
Proof.
  intros Hs Hn. split.
  - intros resp e Hd. split.
    + rewrite (UploadChunkedBlob_value _ _ _ _ _ _ _ _ Hs), Hn.
      rewrite Client_Do_run in Hd. simpl in Hd.
      destruct (Client registry (requests w1) _) as [[rq|] [e'|]];
        simpl in Hd; try done; by injection Hd as _ ->.
    + pose proof (initiateUpload_sends_no "PUT" registry repository w) as Hp.
      rewrite Hs in Hp. simpl in Hp. rewrite <- Hp by done. clear Hp.
      assert (Hm : Method (octet_request patch getBody) <> "PUT").
      { apply NewRequest_inl in Hn. subst patch.
        by destruct (octet_request_fields "PATCH" (URL_String u)
          (Some content) getBody) as (-> & _). }
      unfold UploadChunkedBlob. run. rewrite Hs. simpl. rewrite Hn.
      fold (octet_request patch getBody).
      rewrite Client_Do_run in Hd |- *. autorewrite with trace.
      simpl in Hd |- *.
      destruct (Client registry (requests w1) _) as [[rq|] [e'|]];
        simpl in Hd; try done; simpl;
        by rewrite sent_with_sent, sent_with_other.
  - intros rp1 upload resp e Hd1 Hq1 Hn2 Hd2.
    rewrite (UploadChunkedBlob_value _ _ _ _ _ _ _ _ Hs), Hn.
    rewrite Client_Do_run in Hd1, Hd2. autorewrite with trace in Hd2.
    simpl in Hd1, Hd2.
    destruct (Client registry (requests w1) _) as [[rq1|] [e1|]];
      simpl in Hd1; try done.
    injection Hd1 as <-. simpl in Hq1. rewrite Hq1. simpl. rewrite Hn2.
    destruct (Client registry (requests w1 ++ _) _) as [[rq2|] [e2|]];
      simpl in Hd2; try done; by injection Hd2 as _ ->.
Qed.

(** X18.  When the upload-collection URL parses, initiateUpload sends one
    request, a POST to that URL with no body and the content type
    application/octet-stream, and drains no body; when it does not parse,
    initiateUpload returns the parse error and sends nothing. *)
Theorem initiateUpload_request registry repository w :
  (forall u, Parse (initiateUrl registry repository) = inl u ->
     requests (initiateUpload registry repository w).2
     = requests w
       ++ [Request_Header_Set
             (bare_request "POST" (initiateUrl registry repository) None)
             "Content-Type" "application/octet-stream"]
     /\ forall n, drains n (initiateUpload registry repository w).2
                  = drains n w)
  /\ (forall e, Parse (initiateUrl registry repository) = inr e ->
        (initiateUpload registry repository w).1 = Val (None, Some e)
        /\ requests (initiateUpload registry repository w).2 = requests w).
Proof.
  unfold initiateUpload. fold (initiateUrl registry repository). run.
  unfold Client_Post. rewrite NewRequest_run. split.
  - intros u ->. rewrite Client_Do_run. simpl.
    destruct (Client registry _ _) as [[rp|] [e|]]; simpl;
      try destruct (Parse _); simpl;
      (split; [by autorewrite with trace
              |intros n; by rewrite !drains_event by done]).
  - intros e ->. simpl. split; [done|by autorewrite with trace].
Qed.

(** Counts the closes of a body along an explicit trace. *)
Ltac count_closes :=
  autorewrite with trace; rewrite ?length_app; simpl;
  repeat first
    [ rewrite closes_same | rewrite closes_sent | rewrite closes_logged
    | rewrite closes_drained | rewrite closes_other by lia ];
  repeat rewrite drains_event by done.

(** X11.  When UploadChunkedBlob succeeds it has closed the body of the
    PATCH answer and the body of the PUT answer once each, and drained no
    body. *)
Theorem UploadChunkedBlob_success_closes registry repository digest content
    getBody w u w1 patch rp1 upload rp2 :
  initiateUpload registry repository w = (Val (Some u, None), w1) ->
  NewRequest "PATCH" (URL_String u) (Some content) = inl patch ->
  (Client_Do registry (octet_request patch getBody) w1).1
    = Val (Some rp1, None) ->
  StatusCode rp1 = 202 ->
  NewRequest "PUT" (URL_String (with_digest u digest)) None = inl upload ->
  (Client_Do registry (finalize_put upload getBody)
     (w1 ++ [Sent (octet_request patch getBody)])).1 = Val (Some rp2, None) ->
  StatusCode rp2 = 201 ->
  let final :=
    (UploadChunkedBlob registry repository digest content getBody w).2 in
  closes (fd (Body rp1)) final = S (closes (fd (Body rp1)) w1)
  /\ closes (fd (Body rp2)) final = S (closes (fd (Body rp2)) w1)
  /\ forall n, drains n final = drains n w1.
Proof.
  intros Hs Hn Hd1 Hq1 Hn2 Hd2 Hq2. unfold UploadChunkedBlob. run.
  rewrite Hs. simpl. rewrite Hn. fold (octet_request patch getBody).
  rewrite Client_Do_run in Hd1, Hd2 |- *. autorewrite with trace in Hd2 |- *.
  simpl in Hd1, Hd2 |- *.
  destruct (Client registry (requests w1) _) as [[rq1|] [e|]];
    simpl in Hd1; try done.
  injection Hd1 as <-. simpl in Hq1 |- *. rewrite Hq1. simpl.
  unfold completeChunkedUploadBlob. run. rewrite Hn2.
  fold (finalize_put upload getBody). rewrite Client_Do_run. simpl.
  autorewrite with trace.
  destruct (Client registry (requests w1 ++ _) _) as [[rq2|] [e|]];
    simpl in Hd2; try done.
  injection Hd2 as <-. simpl in Hq2 |- *. rewrite Hq2. simpl.
  repeat split; [count_closes; done ..|].
  intros n. by count_closes.
Qed.

(** X12.  After a session, UploadBlob returns an error of the PUT exchange
    unchanged and closes no body then, even if a response came with the
    error; a response without error has its body closed once and is never
    drained. *)
Theorem UploadBlob_put_outcome registry repository digest content getBody w u
    w1 upload :
  initiateUpload registry repository w = (Val (Some u, None), w1) ->
  NewRequest "PUT" (URL_String (with_digest u digest)) (Some content)
    = inl upload ->
  let final := (UploadBlob registry repository digest content getBody w).2 in
  (forall resp e,
     (Client_Do registry (octet_request upload getBody) w1).1
       = Val (resp, Some e) ->
     (UploadBlob registry repository digest content getBody w).1
       = Val (Some e)
     /\ forall n, closes n final = closes n w1)
  /\ (forall rp,
        (Client_Do registry (octet_request upload getBody) w1).1
          = Val (Some rp, None) ->
        closes (fd (Body rp)) final = S (closes (fd (Body rp)) w1)
        /\ forall n, drains n final = drains n w1).
Proof.
  intros Hs Hn. unfold UploadBlob. run. rewrite Hs. simpl. rewrite Hn.
  fold (octet_request upload getBody). rewrite !Client_Do_run. simpl.
  autorewrite with trace.
  destruct (Client registry (requests w1) _) as [[rq|] [e'|]]; simpl; split.
  all: try (intros resp e [=]; subst; split; [done|intros n; by count_closes]).
  all: try (intros rp [=]; subst; simpl; split;
            [by count_closes|intros n; by count_closes]).
  all: try by intros resp e [=].
  all: by intros rp [=].
Qed.

(** X13.  UploadBlobToArtifactory does not return a transport error of the
    PATCH exchange itself: it returns a new error whose text holds the text
    of that error, the repository and the digest, and the status text too
    when a response came with the error; no PUT is sent. *)
Theorem UploadBlobToArtifactory_patch_error registry repository digest content
    getBody w u w1 patch resp e :
  initiateUpload registry repository w = (Val (Some u, None), w1) ->
  NewRequest "PATCH" (URL_String (with_digest u digest)) (Some content)
    = inl patch ->
  (Client_Do registry (octet_request patch getBody) w1).1
    = Val (resp, Some e) ->
  exists msg,
    (UploadBlobToArtifactory registry repository digest content getBody w).1
      = Val (Some (errorString msg))
    /\ Contains msg (Error e) = true
    /\ Contains msg repository = true
    /\ Contains msg digest = true
    /\ (forall rp, resp = Some rp -> Contains msg (Status rp) = true)
    /\ sent_with "PUT"
         (UploadBlobToArtifactory registry repository digest content getBody
            w).2 = sent_with "PUT" w.
Proof.
  intros Hs Hn Hd.
  pose proof (initiateUpload_sends_no "PUT" registry repository w) as Hp.
  rewrite Hs in Hp. simpl in Hp. rewrite <- Hp by done. clear Hp.
  assert (Hm : Method (octet_request patch getBody) <> "PUT").
  { apply NewRequest_inl in Hn. subst patch.
    by destruct (octet_request_fields "PATCH"
      (URL_String (with_digest u digest)) (Some content) getBody)
      as (-> & _). }
  unfold UploadBlobToArtifactory. run. rewrite Hs. simpl. rewrite Hn.
  fold (octet_request patch getBody).
  rewrite Client_Do_run in Hd |- *. autorewrite with trace.
  simpl in Hd |- *.
  destruct (Client registry (requests w1) _) as [[rq|] [e'|]];
    simpl in Hd; try done; injection Hd as <- <-; simpl.
  - eexists. split; [done|]. repeat split; try contains.
    + intros rp [= <-]. cbn [Status with_fd]. contains.
    + rewrite sent_with_other by done.
      by rewrite sent_with_sent, sent_with_other.
  - eexists. split; [done|]. repeat split; try contains.
    + by intros rp [=].
    + by rewrite sent_with_sent, sent_with_other.
Qed.

(** X14.  Whenever the PATCH exchange of UploadBlobToArtifactory returns a
    response, with or without an error and whatever follows, the body of
    that response is closed exactly once. *)
Theorem UploadBlobToArtifactory_patch_body_closed registry repository digest
    content getBody w u w1 patch rp err :
  initiateUpload registry repository w = (Val (Some u, None), w1) ->
  NewRequest "PATCH" (URL_String (with_digest u digest)) (Some content)
    = inl patch ->
  (Client_Do registry (octet_request patch getBody) w1).1
    = Val (Some rp, err) ->
  closes (fd (Body rp))
    (UploadBlobToArtifactory registry repository digest content getBody w).2
  = S (closes (fd (Body rp)) w1).
Proof.
  intros Hs Hn Hd. unfold UploadBlobToArtifactory. run. rewrite Hs. simpl.
  rewrite Hn. fold (octet_request patch getBody).
  rewrite Client_Do_run in Hd |- *. autorewrite with trace.
  simpl in Hd |- *.
  destruct (Client registry (requests w1) _) as [[rq|] [e'|]];
    simpl in Hd; try done; injection Hd as <- <-; simpl.
  - by count_closes.
  - destruct (negb _); simpl; [by count_closes|].
    destruct (NewRequest "PUT" _ _) as [upload|e]; simpl; [|by count_closes].
    rewrite Client_Do_run. simpl. by count_closes.
Qed.

Lemma octet_request_forwards (method url : string) (body : option Reader)
    getBody :
  forwards getBody (octet_request (bare_request method url body) getBody).
Proof.
  unfold forwards, octet_request. by destruct getBody; split.
Qed.

Lemma finalize_put_forwards (method url : string) (body : option Reader)
    getBody :
  forwards getBody (finalize_put (bare_request method url body) getBody).
Proof.
  unfold forwards, finalize_put. by destruct getBody; split.
Qed.

Ltac forwarded :=
  repeat (constructor;
          try first [apply octet_request_forwards | apply finalize_put_forwards]).

(** X15.  When the caller gives a regenerator, every request an upload
    sends after the session initiation, be it the monolithic PUT, a PATCH or
    a finalizing PUT, carries that regenerator as its GetBody, and the
    content type application/octet-stream. *)
Theorem uploads_forward_regenerator registry repository digest content g w :
  (exists rest,
     requests (UploadBlob registry repository digest content (Some g) w).2
     = requests (initiateUpload registry repository w).2 ++ rest
     /\ Forall (fun r => GetBody r = Some g
                         /\ Header_Get (ReqHeader r) "Content-Type"
                            = "application/octet-stream") rest)
  /\ (exists rest,
        requests
          (UploadChunkedBlob registry repository digest content (Some g) w).2
        = requests (initiateUpload registry repository w).2 ++ rest
        /\ Forall (fun r => GetBody r = Some g
                            /\ Header_Get (ReqHeader r) "Content-Type"
                               = "application/octet-stream") rest)
  /\ (exists rest,
        requests
          (UploadBlobToArtifactory registry repository digest content (Some g)
             w).2
        = requests (initiateUpload registry repository w).2 ++ rest
        /\ Forall (fun r => GetBody r = Some g
                            /\ Header_Get (ReqHeader r) "Content-Type"
                               = "application/octet-stream") rest).
Proof.
  change (fun r => GetBody r = Some g
                   /\ Header_Get (ReqHeader r) "Content-Type"
                      = "application/octet-stream")
    with (forwards (Some g)).
  generalize (Some g). intros getBody.
  unfold UploadBlob, UploadChunkedBlob, UploadBlobToArtifactory,
    completeChunkedUploadBlob. run.
  destruct (initiateUpload registry repository w)
    as [[[[u|] [e|]]|] w1]; simpl.
  1,3,4,5: repeat split; exists []; by rewrite app_nil_r.
  rewrite !NewRequest_run.
  repeat split.
  - destruct (Parse _); simpl;
      [|exists []; split; [by autorewrite with trace list|done]].
    fold (octet_request (bare_request "PUT"
      (URL_String (with_digest u digest)) (Some content)) getBody).
    rewrite Client_Do_run. simpl.
    exists [octet_request (bare_request "PUT"
              (URL_String (with_digest u digest)) (Some content)) getBody].
    split; [|forwarded].
    destruct (Client registry _ _) as [[rp|] [e|]]; simpl;
      by autorewrite with trace.
  - destruct (Parse (URL_String u)); simpl;
      [|exists []; split; [by autorewrite with trace list|done]].
    fold (octet_request (bare_request "PATCH" (URL_String u) (Some content))
      getBody).
    rewrite Client_Do_run. simpl.
    destruct (Client registry _ _) as [[rp|] [e|]]; simpl;
      try (eexists; split; [by autorewrite with trace|forwarded]).
    destruct (negb _); simpl;
      [eexists; split; [by autorewrite with trace|forwarded]|].
    destruct (Parse _); simpl;
      [|eexists; split; [by autorewrite with trace|forwarded]].
    fold (finalize_put (bare_request "PUT"
      (URL_String (with_digest u digest)) None) getBody).
    rewrite Client_Do_run. simpl.
    exists [octet_request (bare_request "PATCH" (URL_String u) (Some content))
              getBody;
            finalize_put (bare_request "PUT"
              (URL_String (with_digest u digest)) None) getBody].
    split; [|forwarded].
    destruct (Client registry _ (finalize_put _ _)) as [[rq|] [e|]]; simpl;
      try destruct (negb _); simpl; autorewrite with trace;
      by rewrite <- app_assoc.
  - destruct (Parse _) eqn:Hp; simpl;
      [|exists []; split; [by autorewrite with trace list|done]].
    fold (octet_request (bare_request "PATCH"
      (URL_String (with_digest u digest)) (Some content)) getBody).
    rewrite Client_Do_run. simpl.
    destruct (Client registry _ _) as [[rp|] [e|]]; simpl;
      try (eexists; split; [by autorewrite with trace|forwarded]).
    destruct (negb _); simpl;
      [eexists; split; [by autorewrite with trace|forwarded]|].
    fold (octet_request (bare_request "PUT"
      (URL_String (with_digest u digest)) None) getBody).
    rewrite Client_Do_run. simpl.
    exists [octet_request (bare_request "PATCH"
              (URL_String (with_digest u digest)) (Some content)) getBody;
            octet_request (bare_request "PUT"
              (URL_String (with_digest u digest)) None) getBody].
    split; [|forwarded].
    autorewrite with trace. by rewrite <- app_assoc.
Qed.

(** One step along the code: the next parse, client answer or status test
    in the goal.  Under the contract [Hok] of the client, a nil error comes
    with a response. *)
Ltac step_with handle :=
  simpl; rewrite ?NewRequest_run, ?Client_Do_run; simpl;
  match goal with
  | |- context [Parse ?x] => destruct (Parse x)
  | |- context [Client ?reg ?h ?r] => handle reg h r
  | |- context [negb ?b] => destruct (negb b)
  end; simpl.

Ltac any_answer reg h r := destruct (Client reg h r) as [[?|] [?|]].

Ltac kept_contract Hok reg h r :=
  let E := fresh "E" in
  destruct (Client reg h r) as [[?|] [?|]] eqn:E;
  [ | | | exfalso; apply (Hok h r); by rewrite E ].

Ltac sent_so_far :=
  first
    [ by (exists []; split; [by autorewrite with trace list|by eexists])
    | by (eexists; split;
          [autorewrite with trace; rewrite <- ?app_assoc; reflexivity
          |by eexists]) ].

(** X16.  No upload repeats a request: UploadBlob sends at most a POST and
    then a PUT, each chunked upload at most a POST, then a PATCH, then a
    PUT, in that order and nothing else. *)
Theorem uploads_never_retry registry repository digest content getBody w :
  (exists sent,
     requests (UploadBlob registry repository digest content getBody w).2
     = requests w ++ sent
     /\ Method <$> sent `prefix_of` ["POST"; "PUT"])
  /\ (exists sent,
        requests
          (UploadChunkedBlob registry repository digest content getBody w).2
        = requests w ++ sent
        /\ Method <$> sent `prefix_of` ["POST"; "PATCH"; "PUT"])
  /\ (exists sent,
        requests
          (UploadBlobToArtifactory registry repository digest content getBody
             w).2
        = requests w ++ sent
        /\ Method <$> sent `prefix_of` ["POST"; "PATCH"; "PUT"]).
Proof.
  unfold UploadBlob, UploadChunkedBlob, UploadBlobToArtifactory,
    completeChunkedUploadBlob, initiateUpload. run.
  unfold Client_Post. rewrite !NewRequest_run.
  destruct getBody as [g|]; repeat split; repeat step_with any_answer;
    rewrite ?Client_Do_run; simpl; sent_so_far.
Qed.

(** X17.  With a client that keeps the contract of http.Client (a nil error
    comes with a response) no upload panics. *)
Theorem uploads_do_not_panic registry repository digest content getBody w :
  responds_or_fails (Client registry) ->
  (UploadBlob registry repository digest content getBody w).1 <> Panic
  /\ (UploadChunkedBlob registry repository digest content getBody w).1
     <> Panic
  /\ (UploadBlobToArtifactory registry repository digest content getBody w).1
     <> Panic.
Proof.
  intros Hok.
  unfold UploadBlob, UploadChunkedBlob, UploadBlobToArtifactory,
    completeChunkedUploadBlob, initiateUpload. run.
  unfold Client_Post. rewrite !NewRequest_run.
  repeat split; repeat step_with ltac:(kept_contract Hok);
    rewrite ?Client_Do_run; simpl; try done.
  all: by destruct (Client registry _ _).
Qed.

End MoreUploads.

(** ** The further properties on example registries *)

Lemma HasBlob_other_status_witness :
  (HasBlob (example_registry [(Some blob_unknown, None)]) "app" example_digest
     []).1 = Val (false, None).
Proof.
  refine (HasBlob_other_status
    (example_registry [(Some blob_unknown, None)]) "app" example_digest []
    blob_unknown _ _).
  - vm_compute. reflexivity.
  - discriminate.
Defined.

Lemma probes_close_body_witness :
  closes 0 (HasBlob (example_registry [probe_refused]) "app" example_digest
              []).2 = 1%nat
  /\ closes 0 (BlobMetadata (example_registry [probe_refused]) "app"
                 example_digest []).2 = 1%nat.
Proof.
  refine (probes_close_body (example_registry [probe_refused]) "app"
    example_digest [] (reply 302 "302 Found" ∅ "") probe_refused.2 _).
  vm_compute. reflexivity.
Defined.

Lemma probes_send_one_HEAD_witness :
  requests (HasBlob (example_registry [(Some blob_present, None)]) "app"
              example_digest []).2
  = [bare_request "HEAD"
       "https://registry.example/v2/app/blobs/sha256:ab12" None]
  /\ requests (BlobMetadata (example_registry [(Some blob_present, None)])
                 "app" example_digest []).2
     = [bare_request "HEAD"
          "https://registry.example/v2/app/blobs/sha256:ab12" None].
Proof.
  refine (probes_send_one_HEAD (example_registry [(Some blob_present, None)])
    "app" example_digest [] _ _).
  vm_compute. reflexivity.
Defined.

Lemma DownloadBlob_effects_witness :
  requests (DownloadBlob (example_registry [(Some blob_unknown, None)]) "app"
              example_digest []).2
  = [bare_request "GET"
       "https://registry.example/v2/app/blobs/sha256:ab12" None].
Proof.
  refine (proj2 (DownloadBlob_effects
    (example_registry [(Some blob_unknown, None)]) "app" example_digest [])
    _ _).
  vm_compute. reflexivity.
Defined.

Lemma unparseable_blob_url_witness :
  (DownloadBlob misconfigured "app" example_digest []).1
  = Val (None,
         Some (UrlError "parse" ":registry.example/v2/app/blobs/sha256:ab12"
                 (errorString "missing protocol scheme")))
  /\ requests (DownloadBlob misconfigured "app" example_digest []).2 = [].
Proof.
  destruct (unparseable_blob_url misconfigured "app" example_digest []
    (UrlError "parse" ":registry.example/v2/app/blobs/sha256:ab12"
       (errorString "missing protocol scheme")))
    as (Hv & Hr & _).
  - vm_compute. reflexivity.
  - split; [exact Hv|exact Hr].
Defined.

Lemma probes_agree_witness :
  exists d,
    (BlobMetadata (example_registry [(Some blob_present, None)]) "app"
       example_digest []).1 = Val (d, None)
    /\ Digest_ d = example_digest.
Proof.
  refine (proj1 (probes_agree (example_registry [(Some blob_present, None)])
    "app" example_digest []) _).
  vm_compute. reflexivity.
Defined.

Lemma single_exchange_no_panic_witness :
  (BlobMetadata (example_registry [(Some blob_present, None)]) "app"
     example_digest []).1 <> Panic
  /\ (DownloadBlob (example_registry [(Some blob_present, None)]) "app"
        example_digest []).1 <> Panic
  /\ (initiateUpload (example_registry [(Some blob_present, None)]) "app"
        []).1 <> Panic.
Proof.
  apply (single_exchange_no_panic
    (example_registry [(Some blob_present, None)]) "app" example_digest []).
  intros history req. unfold example_registry, scripted. simpl.
  destruct (length history) as [|n]; simpl; discriminate.
Defined.

Lemma uploads_stop_at_failed_session_witness :
  (UploadChunkedBlob (example_registry [malformed_location]) "app"
     example_digest "layer" None []).1
  = Val (Some (UrlError "parse" ":7f3c" (errorString "missing protocol scheme")))
  /\ requests
       (UploadChunkedBlob (example_registry [malformed_location]) "app"
          example_digest "layer" None []).2
     = requests (initiateUpload (example_registry [malformed_location]) "app"
                   []).2.
Proof.
  destruct (uploads_stop_at_failed_session
    (example_registry [malformed_location]) "app" example_digest "layer" None
    [] None (UrlError "parse" ":7f3c" (errorString "missing protocol scheme"))
    (initiateUpload (example_registry [malformed_location]) "app" []).2)
    as (_ & Hc & _).
  - vm_compute. reflexivity.
  - rewrite Hc. split; reflexivity.
Defined.

Lemma UploadChunkedBlob_success_iff_witness :
  (UploadChunkedBlob conformant "app" example_digest "layer" None []).1
  = Val None.
Proof.
  apply (proj2 (UploadChunkedBlob_success_iff conformant "app" example_digest
    "layer" None [])).
  exists session_url. do 5 eexists.
  split; [vm_compute; reflexivity|].
  split; [vm_compute; reflexivity|].
  split; [vm_compute; reflexivity|].
  split; [reflexivity|].
  split; [vm_compute; reflexivity|].
  split; [vm_compute; reflexivity|reflexivity].
Defined.

Lemma UploadChunkedBlob_transport_errors_witness :
  (UploadChunkedBlob patch_unreachable "app" example_digest "layer" None []).1
  = Val (Some connection_refused)
  /\ sent_with "PUT"
       (UploadChunkedBlob patch_unreachable "app" example_digest "layer" None
          []).2 = [].
Proof.
  refine (proj1 (UploadChunkedBlob_transport_errors patch_unreachable "app"
    example_digest "layer" None [] session_url
    (initiateUpload patch_unreachable "app" []).2 _ _ _) None
    connection_refused _); vm_compute; reflexivity.
Defined.

Lemma UploadChunkedBlob_success_closes_witness :
  closes 1 (UploadChunkedBlob conformant "app" example_digest "layer" None []).2
  = 1%nat
  /\ closes 2
       (UploadChunkedBlob conformant "app" example_digest "layer" None []).2
     = 1%nat.
Proof.
  destruct (UploadChunkedBlob_success_closes conformant "app" example_digest
    "layer" None [] session_url (initiateUpload conformant "app" []).2
    (bare_request "PATCH" (URL_String session_url) (Some "layer"))
    (with_fd 1 (reply 202 "202 Accepted" ∅ ""))
    (bare_request "PUT" (URL_String (with_digest session_url example_digest))
       None)
    (with_fd 2 (reply 201 "201 Created" ∅ ""))) as (H1 & H2 & _).
  1-7: vm_compute; reflexivity.
  split; [exact H1|exact H2].
Defined.

Lemma UploadBlob_put_outcome_witness :
  closes 1 (UploadBlob put_rejected "app" example_digest "layer" None []).2
  = 1%nat.
Proof.
  refine (proj1 (proj2 (UploadBlob_put_outcome put_rejected "app"
    example_digest "layer" None [] session_url
    (initiateUpload put_rejected "app" []).2 _ _ _)
    (with_fd 1 (reply 500 "500 Internal Server Error" ∅ "digest mismatch"))
    _)); vm_compute; reflexivity.
Defined.

Lemma UploadBlobToArtifactory_patch_error_witness :
  exists msg,
    (UploadBlobToArtifactory patch_redirected "app" example_digest "layer" None
       []).1 = Val (Some (errorString msg))
    /\ Contains msg
         (Error (UrlError "Patch" session_location
                   (errorString "redirect refused"))) = true
    /\ Contains msg "302 Found" = true.
Proof.
  destruct (UploadBlobToArtifactory_patch_error patch_redirected "app"
    example_digest "layer" None [] session_url
    (initiateUpload patch_redirected "app" []).2
    (bare_request "PATCH"
       (URL_String (with_digest session_url example_digest)) (Some "layer"))
    (Some (with_fd 1 (reply 302 "302 Found" ∅ "")))
    (UrlError "Patch" session_location (errorString "redirect refused")))
    as (msg & Hv & He & _ & _ & Hs & _).
  1-3: vm_compute; reflexivity.
  exists msg. split; [exact Hv|]. split; [exact He|exact (Hs _ eq_refl)].
Defined.

Lemma UploadBlobToArtifactory_patch_body_closed_witness :
  closes 1
    (UploadBlobToArtifactory patch_redirected "app" example_digest "layer" None
       []).2 = 1%nat.
Proof.
  refine (UploadBlobToArtifactory_patch_body_closed patch_redirected "app"
    example_digest "layer" None [] session_url
    (initiateUpload patch_redirected "app" []).2 _
    (with_fd 1 (reply 302 "302 Found" ∅ "")) _ _ _ _);
    vm_compute; reflexivity.
Defined.

Lemma uploads_do_not_panic_witness :
  (UploadBlob conformant "app" example_digest "layer" None []).1 <> Panic
  /\ (UploadChunkedBlob conformant "app" example_digest "layer" None []).1
     <> Panic
  /\ (UploadBlobToArtifactory conformant "app" example_digest "layer" None
        []).1 <> Panic.
Proof.
  apply (uploads_do_not_panic conformant "app" example_digest "layer" None []).
  intros history req. unfold conformant, example_registry, scripted. simpl.
  destruct (length history) as [|[|[|n]]]; simpl; discriminate.
Defined.

Lemma initiateUpload_request_witness :
  line_of <$> requests (initiateUpload conformant "app" []).2
  = [("POST", "https://registry.example/v2/app/blobs/uploads/")]
  /\ ReqBody <$> requests (initiateUpload conformant "app" []).2 = [None].
Proof.
  edestruct (proj1 (initiateUpload_request conformant "app" [])) as (Hr & _).
  - vm_compute. reflexivity.
  - rewrite Hr. split; reflexivity.
Defined.
